(** * mph Meter configurator: the device model [MphMeter]

    A shallow embedding of the model class of
    [src/config_app/mph_meter_configurator.py] (the exceptions, [DEFAULTS]
    and [MphMeter]) and the properties of its serial protocol client.

    Conventions of the embedding:
    - a Python [str] is a [string] holding the UTF-8 text; every string the
      protocol handles is ASCII, the parameter names and units are not;
    - a Python [bytes] is a list of bytes;
    - a Python [int] is a [Z], a Python [float] is a primitive binary64
      [float];
    - the [serial.Serial] object is a record; the calls made on it are
      logged in a trace, and what each call does (succeeds, raises
      [SerialException], returns bytes) is given by an environment;
    - a method is a function of the state that returns a value or a raised
      exception together with the state it leaves. *)

From Stdlib Require Import ZArith List String Ascii Bool Lia.
From Stdlib Require Import Numbers.DecimalString Numbers.DecimalPos.
From Stdlib Require Import Floats.PrimFloat Floats.SpecFloat Floats.FloatOps.
Import ListNotations.

Local Open Scope string_scope.
Local Open Scope Z_scope.

(** ** Python values *)

(** The numbers a setter receives: the view passes [IntVar.get()] or
    [DoubleVar.get()], [set_defaults] passes the entries of [DEFAULTS]. *)
Inductive number : Type :=
| Int (z : Z)
| Float (f : float).

(** The elements of the list [read] works on: strings as received, replaced
    one by one by the converted values. *)
Inductive pyval : Type :=
| PyInt (z : Z)
| PyFloat (f : float)
| PyStr (s : string).

(** The exceptions of the module, and the built-in ones its code can raise. *)
Inductive exn : Type :=
| ReplyError (text : string) (value : option (list pyval))
| BoundaryError (text : string) (value : number)
| NotConnectedError
| LostConnectionError
| SerialException
| ValueError
| OverflowError
| UnicodeEncodeError
| KeyError
| OSError
| NameError (name : string).

Inductive result (A : Type) : Type :=
| Ok (a : A)
| Raise (e : exn).

Arguments Ok {A} a.
Arguments Raise {A} e.

Definition LF : string := String (ascii_of_nat 10) "".

(** ** Numbers *)

(** [str(z)] and the [d] format of an [int]. *)
Definition dec (z : Z) : string := NilZero.string_of_int (Z.to_int z).

(** ['{:d}'.format(value)]: the [d] presentation type is defined for [int]
    only, a [float] raises [ValueError]. *)
Definition format_d (value : number) : result string :=
  match value with
  | Int z => Ok (dec z)
  | Float _ => Raise ValueError
  end.

(** [value*1000]: an [int] stays an [int]; with a [float] the factor is
    converted to [1000.0] and the product is rounded to binary64. *)
Definition times1000 (value : number) : number :=
  match value with
  | Int z => Int (z * 1000)
  | Float f => Float (PrimFloat.mul f 1000%float)
  end.

(** The integer part of the finite binary64 number [m * 2^e]. *)
Definition trunc_mantissa (m : positive) (e : Z) : Z :=
  if 0 <=? e then Z.shiftl (Zpos m) e else Z.shiftr (Zpos m) (- e).

(** [int(f)] for a [float]: truncation towards zero; [nan] raises
    [ValueError], an infinity raises [OverflowError]. *)
Definition int_of_float (f : float) : result Z :=
  match Prim2SF f with
  | S754_nan => Raise ValueError
  | S754_infinity _ => Raise OverflowError
  | S754_zero _ => Ok 0
  | S754_finite s m e => Ok (cond_Zopp s (trunc_mantissa m e))
  end.

(** [int(x)] for a number. *)
Definition py_int (x : number) : result Z :=
  match x with
  | Int z => Ok z
  | Float f => int_of_float f
  end.

(** Comparison of an [int] with a number, [Some c] when [z c x] and [None]
    when the two are unordered ([x] is [nan]).  Python compares an [int]
    with a [float] by their exact values. *)
Definition compare_Z_float (z : Z) (f : float) : option comparison :=
  match Prim2SF f with
  | S754_nan => None
  | S754_infinity s => Some (if s then Gt else Lt)
  | S754_zero _ => Some (z ?= 0)
  | S754_finite s m e =>
      if 0 <=? e then Some (z ?= Z.shiftl (cond_Zopp s (Zpos m)) e)
      else Some (Z.shiftl z (- e) ?= cond_Zopp s (Zpos m))
  end.

Definition compare_Z_number (z : Z) (x : number) : option comparison :=
  match x with
  | Int y => Some (z ?= y)
  | Float f => compare_Z_float z f
  end.

(** [z <= x], [x <= z], [x == z], [x < z] and [x > z] for a bound [z]. *)
Definition Z_le_num (z : Z) (x : number) : bool :=
  match compare_Z_number z x with
  | Some Lt | Some Eq => true
  | _ => false
  end.

Definition num_le_Z (x : number) (z : Z) : bool :=
  match compare_Z_number z x with
  | Some Gt | Some Eq => true
  | _ => false
  end.

Definition num_eq_Z (x : number) (z : Z) : bool :=
  match compare_Z_number z x with
  | Some Eq => true
  | _ => false
  end.

Definition num_lt_Z (x : number) (z : Z) : bool :=
  match compare_Z_number z x with
  | Some Gt => true
  | _ => false
  end.

Definition num_gt_Z (x : number) (z : Z) : bool :=
  match compare_Z_number z x with
  | Some Lt => true
  | _ => false
  end.

(** ** Strings and bytes *)

Definition is_ascii_byte (b : Byte.byte) : bool := (Byte.to_N b <? 128)%N.

(** [s.encode('ascii')]: a character outside ASCII raises
    [UnicodeEncodeError]. *)
Definition encode_ascii (s : string) : result (list Byte.byte) :=
  let bs := list_byte_of_string s in
  if forallb is_ascii_byte bs then Ok bs else Raise UnicodeEncodeError.

(** [bs.decode('ascii', errors='ignore')]: bytes outside ASCII are dropped. *)
Definition decode_ascii_ignore (bs : list Byte.byte) : string :=
  string_of_list_byte (filter is_ascii_byte bs).

(** The ASCII characters [str.strip] treats as white space: tab to
    carriage return, the four separators 28 to 31, space. *)
Definition is_space (c : ascii) : bool :=
  let n := N_of_ascii c in
  ((9 <=? n) && (n <=? 13) || (28 <=? n) && (n <=? 32))%N.

Fixpoint lstrip (s : string) : string :=
  match s with
  | String c r => if is_space c then lstrip r else s
  | EmptyString => EmptyString
  end.

Fixpoint rstrip (s : string) : string :=
  match s with
  | String c r =>
      match rstrip r with
      | EmptyString => if is_space c then EmptyString else String c EmptyString
      | r' => String c r'
      end
  | EmptyString => EmptyString
  end.

(** [s.strip()] *)
Definition strip (s : string) : string := rstrip (lstrip s).

(** [s.split(sep)] for a separator of one character: never empty. *)
Fixpoint split (sep : ascii) (s : string) : list string :=
  match s with
  | EmptyString => [EmptyString]
  | String c r =>
      if Ascii.eqb c sep then EmptyString :: split sep r
      else match split sep r with
           | h :: t => String c h :: t
           | [] => [String c EmptyString]
           end
  end.

Definition hex_digit (n : N) : ascii :=
  ascii_of_N (if (n <? 10)%N then 48 + n else 87 + n)%N.

(** One character of [repr(s)] inside the quotes [q]. *)
Definition repr_char (q c : ascii) : string :=
  let n := N_of_ascii c in
  if Ascii.eqb c q || Ascii.eqb c "\"%char then String "\"%char (String c "")
  else if (n =? 9)%N then "\t"
  else if (n =? 10)%N then "\n"
  else if (n =? 13)%N then "\r"
  else if ((n <? 32) || (n =? 127))%N
       then String "\"%char (String "x"%char
              (String (hex_digit (n / 16)) (String (hex_digit (n mod 16)) "")))
  else String c "".

Fixpoint contains (c : ascii) (s : string) : bool :=
  match s with
  | String d r => Ascii.eqb c d || contains c r
  | EmptyString => false
  end.

(** [repr(s)] for an ASCII string: single quotes, unless the string has a
    single quote and no double quote. *)
Definition repr (s : string) : string :=
  let q := if contains "'"%char s && negb (contains (ascii_of_nat 34) s)
           then ascii_of_nat 34 else "'"%char in
  String q (String.concat "" (map (repr_char q) (list_ascii_of_string s)))
    ++ String q "".

(** ** [int(s)] and [float(s)] for a string *)

(** [Py_ISSPACE]: the white space [int] and [float] skip around a literal,
    tab to carriage return and space.  The separators 28 to 31, which
    [str.strip] removes, are not among it. *)
Definition Py_ISSPACE (c : ascii) : bool :=
  let n := N_of_ascii c in
  ((9 <=? n) && (n <=? 13) || (n =? 32))%N.

Fixpoint lstrip_c (s : string) : string :=
  match s with
  | String c r => if Py_ISSPACE c then lstrip_c r else s
  | EmptyString => EmptyString
  end.

Fixpoint rstrip_c (s : string) : string :=
  match s with
  | String c r =>
      match rstrip_c r with
      | EmptyString =>
          if Py_ISSPACE c then EmptyString else String c EmptyString
      | r' => String c r'
      end
  | EmptyString => EmptyString
  end.

(** The text without the white space [int] and [float] skip before and
    after the literal. *)
Definition strip_c (s : string) : string := rstrip_c (lstrip_c s).

(** The six low bits of a byte of a UTF-8 sequence. *)
Definition low6 (c : ascii) : N := (N_of_ascii c mod 64)%N.

(** The code points of a [str], from its UTF-8 text.  Bytes that are not
    UTF-8 text stand for no [str]; they give the code point [0xfffd]. *)
Fixpoint code_points (s : string) : list N :=
  match s with
  | EmptyString => []
  | String c r =>
      let n := N_of_ascii c in
      if (n <? 0x80)%N then n :: code_points r
      else if ((0xc0 <=? n) && (n <? 0xe0))%N then
        match r with
        | String c2 r2 => ((n - 0xc0) * 64 + low6 c2)%N :: code_points r2
        | _ => [0xfffd%N]
        end
      else if ((0xe0 <=? n) && (n <? 0xf0))%N then
        match r with
        | String c2 (String c3 r3) =>
            (((n - 0xe0) * 64 + low6 c2) * 64 + low6 c3)%N :: code_points r3
        | _ => [0xfffd%N]
        end
      else if (0xf0 <=? n)%N then
        match r with
        | String c2 (String c3 (String c4 r4)) =>
            ((((n - 0xf0) * 64 + low6 c2) * 64 + low6 c3) * 64 + low6 c4)%N
              :: code_points r4
        | _ => [0xfffd%N]
        end
      else 0xfffd%N :: code_points r
  end.

(** [Py_UNICODE_ISSPACE] for a code point outside ASCII. *)
Definition Py_UNICODE_ISSPACE (ch : N) : bool :=
  (existsb (N.eqb ch)
     [0x85; 0xa0; 0x1680; 0x2028; 0x2029; 0x202f; 0x205f; 0x3000]
   || (0x2000 <=? ch) && (ch <=? 0x200a))%N.

(** The code points whose decimal value is 0 in the Unicode database of the
    interpreter (version 14.0, of Python 3.11): each is followed by the
    digits 1 to 9 of its script. *)
Definition decimal_zeros : list N :=
  [0x0030; 0x0660; 0x06f0; 0x07c0; 0x0966; 0x09e6; 0x0a66; 0x0ae6; 0x0b66;
   0x0be6; 0x0c66; 0x0ce6; 0x0d66; 0x0de6; 0x0e50; 0x0ed0; 0x0f20; 0x1040;
   0x1090; 0x17e0; 0x1810; 0x1946; 0x19d0; 0x1a80; 0x1a90; 0x1b50; 0x1bb0;
   0x1c40; 0x1c50; 0xa620; 0xa8d0; 0xa900; 0xa9d0; 0xa9f0; 0xaa50; 0xabf0;
   0xff10; 0x104a0; 0x10d30; 0x11066; 0x110f0; 0x11136; 0x111d0; 0x112f0;
   0x11450; 0x114d0; 0x11650; 0x116c0; 0x11730; 0x118e0; 0x11950; 0x11c50;
   0x11d50; 0x11da0; 0x16a60; 0x16ac0; 0x16b50; 0x1d7ce; 0x1d7d8; 0x1d7e2;
   0x1d7ec; 0x1d7f6; 0x1e140; 0x1e2f0; 0x1e950; 0x1fbf0]%N.

(** [Py_UNICODE_TODECIMAL]: the decimal value of a code point that is a
    decimal digit. *)
Definition Py_UNICODE_TODECIMAL (ch : N) : option N :=
  match find (fun z => (z <=? ch) && (ch <? z + 10))%N decimal_zeros with
  | Some z => Some (ch - z)%N
  | None => None
  end.

(** The loop of [_PyUnicode_TransformDecimalAndSpaceToASCII]: a code point
    below 127 is kept, white space becomes a space, a decimal digit its
    ASCII digit; the first other code point becomes a question mark, which
    ends the text. *)
Fixpoint to_ascii (chs : list N) : string :=
  match chs with
  | [] => EmptyString
  | ch :: r =>
      if (ch <? 127)%N then String (ascii_of_N ch) (to_ascii r)
      else if Py_UNICODE_ISSPACE ch then String " " (to_ascii r)
      else match Py_UNICODE_TODECIMAL ch with
           | Some d => String (ascii_of_N (48 + d)) (to_ascii r)
           | None => "?"
           end
  end.

(** What [int] and [float] make of a [str] before they parse it: an ASCII
    string is taken as it is. *)
Definition TransformDecimalAndSpaceToASCII (s : string) : string :=
  if forallb is_ascii_byte (list_byte_of_string s) then s
  else to_ascii (code_points s).

Definition digit_val (c : ascii) : option Z :=
  let n := N_of_ascii c in
  if ((48 <=? n) && (n <=? 57))%N then Some (Z.of_N (n - 48)) else None.

(** The rest of a run of digits in which single underscores may separate
    digits: the value read so far, the number of digits, what follows. *)
Fixpoint more_digits (s : string) (acc : Z) (n : Z) : Z * Z * string :=
  match s with
  | String c r =>
      match digit_val c with
      | Some d => more_digits r (10 * acc + d) (n + 1)
      | None =>
          if Ascii.eqb c "_"%char then
            match r with
            | String c2 r2 =>
                match digit_val c2 with
                | Some d => more_digits r2 (10 * acc + d) (n + 1)
                | None => (acc, n, s)
                end
            | EmptyString => (acc, n, s)
            end
          else (acc, n, s)
      end
  | EmptyString => (acc, n, EmptyString)
  end.

(** A run of digits that starts with a digit, continuing the value [acc]. *)
Definition digitpart (s : string) (acc : Z) : option (Z * Z * string) :=
  match s with
  | String c r =>
      match digit_val c with
      | Some d => Some (more_digits r (10 * acc + d) 1)
      | None => None
      end
  | EmptyString => None
  end.

(** An optional sign: [true] for a minus. *)
Definition sign_of (s : string) : bool * string :=
  match s with
  | String c r =>
      if Ascii.eqb c "-"%char then (true, r)
      else if Ascii.eqb c "+"%char then (false, r)
      else (false, s)
  | EmptyString => (false, s)
  end.

(** [int(s)] in base 10: the text brought to ASCII, white space around, a
    sign, digits.  [None] stands for the [ValueError] of a string that is
    no integer literal. *)
Definition int_of_string (s : string) : option Z :=
  let (neg, body) := sign_of (strip_c (TransformDecimalAndSpaceToASCII s)) in
  match digitpart body 0 with
  | Some (v, _, EmptyString) => Some (if neg then - v else v)
  | _ => None
  end.

Definition lower (c : ascii) : ascii :=
  let n := N_of_ascii c in
  if ((65 <=? n) && (n <=? 90))%N then ascii_of_N (n + 32) else c.

Definition lowercase (s : string) : string :=
  string_of_list_ascii (map lower (list_ascii_of_string s)).

(** The binary64 number nearest to [n / d] (ties to even) with the sign
    [neg], for [n] and [d] positive: the quotient is taken with at least
    two bits more than the precision and one more for a remainder. *)
Definition round_ratio (neg : bool) (n d : Z) : float :=
  let s := (Z.max 0 (56 + Z.log2 d - Z.log2 n))%Z in
  let q := (Z.shiftl n s / d)%Z in
  let sticky := (if Z.shiftl n s mod d =? 0 then 0 else 1)%Z in
  match (2 * q + sticky)%Z with
  | Zpos m => SF2Prim (binary_round prec emax neg m (- s - 1)%Z)
  | _ => if neg then neg_zero else zero
  end.

(** The binary64 number nearest to [m * 10^e] with the sign [neg]. *)
Definition decimal_to_float (neg : bool) (m e : Z) : float :=
  if (m =? 0)%Z then (if neg then neg_zero else zero)
  else if (0 <=? e)%Z then round_ratio neg (m * 10 ^ e) 1
  else round_ratio neg m (10 ^ (- e)).

(** The exponent part of a decimal literal: [Some 0] when there is none. *)
Definition exponent_of (s : string) : option Z :=
  match s with
  | EmptyString => Some 0
  | String c r =>
      if Ascii.eqb (lower c) "e"%char then
        let (neg, digits) := sign_of r in
        match digitpart digits 0 with
        | Some (v, _, EmptyString) => Some (if neg then - v else v)
        | _ => None
        end
      else None
  end.

(** The fraction and exponent that may follow the integer digits [ipart]
    ([have_int] tells whether there were any). *)
Definition fraction_of (neg : bool) (ipart : Z) (have_int : bool) (s : string)
  : option float :=
  match s with
  | String "." r =>
      match digitpart r ipart with
      | Some (m, k, rest) =>
          match exponent_of rest with
          | Some e => Some (decimal_to_float neg m (e - k))
          | None => None
          end
      | None =>
          if have_int then
            match exponent_of r with
            | Some e => Some (decimal_to_float neg ipart e)
            | None => None
            end
          else None
      end
  | _ =>
      if have_int then
        match exponent_of s with
        | Some e => Some (decimal_to_float neg ipart e)
        | None => None
        end
      else None
  end.

(** [float(s)]: the text brought to ASCII, white space around, a sign, then
    [inf], [infinity] or [nan] in any case, or a decimal literal; the value
    is correctly rounded.  [None] stands for the [ValueError] of any other
    string. *)
Definition float_of_string (s : string) : option float :=
  let (neg, body) := sign_of (strip_c (TransformDecimalAndSpaceToASCII s)) in
  let word := lowercase body in
  if (word =? "inf")%string || (word =? "infinity")%string
  then Some (if neg then neg_infinity else infinity)
  else if (word =? "nan")%string then Some nan
  else match digitpart body 0 with
       | Some (i, _, rest) => fraction_of neg i true rest
       | None => fraction_of neg 0 false body
       end.

(** ** The serial port and its environment *)

(** The calls [MphMeter] makes on its [serial.Serial] object. *)
Inductive event : Type :=
| EvOpen (port : string)
| EvClose
| EvWrite (data : list Byte.byte)
| EvFlush
| EvReadUntil (expected : list Byte.byte).

(** What a call does: it raises [SerialException], or it returns (the bytes
    read, for [read_until]; the data is not used for the other calls). *)
Inductive outcome : Type :=
| Fails
| Returns (data : list Byte.byte).

(** The port driver and the device behind it: the outcome of a call, given
    the calls made before it. *)
Definition environment : Type := list event -> event -> outcome.

(** The attributes of [serial.Serial] the model uses; [timeout] is in
    milliseconds. *)
Record Serial : Type := {
  baudrate : Z;
  timeout : Z;
  port : option string;
  is_open : bool
}.

(** An [MphMeter] instance (its only attribute is [_serial]) and the calls
    made on the port so far, oldest first. *)
Record world : Type := {
  _serial : Serial;
  trace : list event
}.

Definition M (A : Type) : Type := world -> result A * world.

Definition ret {A} (a : A) : M A := fun w => (Ok a, w).

Definition raise {A} (e : exn) : M A := fun w => (Raise e, w).

Definition bind {A B} (c : M A) (k : A -> M B) : M B :=
  fun w =>
    match c w with
    | (Ok a, w') => k a w'
    | (Raise e, w') => (Raise e, w')
    end.

Definition lift {A} (r : result A) : M A := fun w => (r, w).

Notation "x <- c ;; k" := (bind c (fun x => k))
  (at level 61, c at next level, right associativity).
Notation "c ;; k" := (bind c (fun _ => k))
  (at level 61, right associativity).

(** [try: body / except serial.SerialException: handler]. *)
Definition try_except {A} (body handler : M A) : M A :=
  fun w =>
    match body w with
    | (Raise SerialException, w') => handler w'
    | r => r
    end.

(** [try: body / except serial.SerialException: handler / else: orelse]:
    an exception raised by [orelse] is not handled. *)
Definition try_except_else {A B} (body : M A) (handler : M B)
  (orelse : A -> M B) : M B :=
  fun w =>
    match body w with
    | (Raise SerialException, w') => handler w'
    | (Raise e, w') => (Raise e, w')
    | (Ok a, w') => orelse a w'
    end.

Definition log (ev : event) (w : world) : world :=
  {| _serial := _serial w; trace := trace w ++ [ev] |}.

Definition set_is_open (b : bool) (w : world) : world :=
  {| _serial := {| baudrate := baudrate (_serial w);
                   timeout := timeout (_serial w);
                   port := port (_serial w);
                   is_open := b |};
     trace := trace w |}.

Definition set_port (p : string) (w : world) : world :=
  {| _serial := {| baudrate := baudrate (_serial w);
                   timeout := timeout (_serial w);
                   port := Some p;
                   is_open := is_open (_serial w) |};
     trace := trace w |}.

(** [MphMeter()]: [serial.Serial(baudrate=9600,timeout=0.9)] has no port
    and is closed. *)
Definition MphMeter : world :=
  {| _serial := {| baudrate := 9600; timeout := 900;
                   port := None; is_open := false |};
     trace := [] |}.

(** [self._serial.is_open] *)
Definition get_is_open : M bool := fun w => (Ok (is_open (_serial w)), w).

(** The written commands, oldest first. *)
Fixpoint written (t : list event) : list (list Byte.byte) :=
  match t with
  | EvWrite data :: t' => data :: written t'
  | _ :: t' => written t'
  | [] => []
  end.

(** ** [DEFAULTS] and the conversions of [read] *)

(** Default values to program into the mph Meter. *)
Definition DEFAULTS : list (string * number) :=
  [("muempp_µm", Int 43000); ("debounce_ms", Int 0); ("vwarn_v", Float 7.5)].

(** [d[key]] *)
Fixpoint getitem (d : list (string * number)) (key : string) : result number :=
  match d with
  | (k, v) :: d' => if (k =? key)%string then Ok v else getitem d' key
  | [] => Raise KeyError
  end.

(** [l[i] = v]; the index is always below the length where it is used. *)
Fixpoint setitem {A} (l : list A) (i : nat) (v : A) : list A :=
  match l, i with
  | _ :: t, O => v :: t
  | h :: t, S j => h :: setitem t j v
  | [], _ => []
  end.

(** [int(s)], [str(s)] and [float(s)/1000] for a received string. *)
Definition to_int (s : string) : result pyval :=
  match int_of_string s with
  | Some z => Ok (PyInt z)
  | None => Raise ValueError
  end.

Definition to_str (s : string) : result pyval := Ok (PyStr s).

Definition to_volts (s : string) : result pyval :=
  match float_of_string s with
  | Some f => Ok (PyFloat (PrimFloat.div f 1000%float))
  | None => Raise ValueError
  end.

(** [parts[i] = conv(parts[i])].  [read] runs it on a list of five entries
    and once for each index, so the entry is there and is still the
    received string; the last case is not reached. *)
Definition assignment (i : nat) (conv : string -> result pyval)
  (parts : list pyval) : result (list pyval) :=
  match nth_error parts i with
  | Some (PyStr s) =>
      match conv s with
      | Ok v => Ok (setitem parts i v)
      | Raise e => Raise e
      end
  | _ => Ok parts
  end.

(** The statements of the [try] block of [read], in order. *)
Definition read_assignments : list (list pyval -> result (list pyval)) :=
  [assignment 0 to_int; assignment 1 to_int; assignment 2 to_str;
   assignment 3 to_volts; assignment 4 to_volts].

(** Statements run in order on the list: the list they leave, and the
    exception that stopped them, if any. *)
Fixpoint run_assignments (stmts : list (list pyval -> result (list pyval)))
  (parts : list pyval) : list pyval * option exn :=
  match stmts with
  | stmt :: rest =>
      match stmt parts with
      | Ok parts' => run_assignments rest parts'
      | Raise e => (parts, Some e)
      end
  | [] => (parts, None)
  end.

Section Model.

Variable env : environment.

(** A call on the open port, answered by the environment. *)
Definition call (ev : event) : M (list Byte.byte) :=
  fun w =>
    if is_open (_serial w) then
      match env (trace w) ev with
      | Fails => (Raise SerialException, log ev w)
      | Returns data => (Ok data, log ev w)
      end
    else (Raise SerialException, w).

(** [self._serial.port = port] on a closed port. *)
Definition Serial_set_port (p : string) : M unit :=
  fun w => (Ok tt, set_port p w).

(** [self._serial.open()]: raises without a port or on an open port. *)
Definition Serial_open : M unit :=
  fun w =>
    match port (_serial w) with
    | Some p =>
        if is_open (_serial w) then (Raise SerialException, w)
        else match env (trace w) (EvOpen p) with
             | Fails => (Raise SerialException, log (EvOpen p) w)
             | Returns _ => (Ok tt, set_is_open true (log (EvOpen p) w))
             end
    | None => (Raise SerialException, w)
    end.

(** [self._serial.close()]: nothing to do on a closed port. *)
Definition Serial_close : M unit :=
  fun w =>
    if is_open (_serial w) then (Ok tt, set_is_open false (log EvClose w))
    else (Ok tt, w).

Definition Serial_write (data : list Byte.byte) : M unit :=
  call (EvWrite data) ;; ret tt.

Definition Serial_flush : M unit :=
  call EvFlush ;; ret tt.

Definition Serial_read_until (expected : list Byte.byte)
  : M (list Byte.byte) :=
  call (EvReadUntil expected).

(** ** The methods of [MphMeter] *)

Definition _runcmd (cmd : string) : M string :=
  opened <- get_is_open ;;
  if negb opened then raise NotConnectedError
  else
    try_except
      (data <- lift (encode_ascii (cmd ++ LF)) ;;
       Serial_write data ;;
       Serial_flush ;;
       line <- Serial_read_until [Byte.x0a] ;;
       ret (strip (decode_ascii_ignore line)))
      (Serial_close ;; raise LostConnectionError).

Definition _setvalue (cmd : string) (value : number) (name : string)
  (b_low b_high : Z) (unit : string) : M Datatypes.unit :=
  opened <- get_is_open ;;
  if negb opened then raise NotConnectedError
  else if negb (Z_le_num b_low value && num_le_Z value b_high) then
    raise (BoundaryError
             (name ++ " must be between " ++ dec b_low ++ unit ++ " and "
                   ++ dec b_high ++ unit ++ "!") value)
  else
    reply <- _runcmd cmd ;;
    if (reply =? "ERR")%string then
      raise (ReplyError ("Error setting " ++ name ++ " value") None)
    else if (reply =? "")%string then
      raise (ReplyError "No reply received" None)
    else if negb (reply =? "OK")%string then
      raise (ReplyError ("Incorrect reply received: " ++ repr reply) None)
    else ret tt.

Definition disconnect : M unit :=
  opened <- get_is_open ;;
  if opened then Serial_close else ret tt.

(** The global [test] that [connect] reads.  The module binds the name
    nowhere (it is not assigned, not imported and no builtin), so reading
    it raises [NameError]. *)
Definition test : M bool := raise (NameError "test").

(** The [else] clause of the [try] runs after a successful [open]; an
    exception it raises is not handled, and ends [connect] before the
    port is looked at again. *)
Definition connect (p : string) : M (bool * string) :=
  disconnect ;;
  r <- try_except_else
         (Serial_set_port p ;; Serial_open)
         (ret (false, "Could not open serial port"))
         (fun _ =>
            enabled <- test ;;
            if enabled then
              reply <- _runcmd "i" ;;
              if (reply =? "mph Meter")%string then ret (true, "")
              else ret (false,
                        "mph Meter did not respond at given serial port")
            else ret (true, "")) ;;
  opened <- get_is_open ;;
  (if negb (fst r) && opened then Serial_close else ret tt) ;;
  ret r.

Definition set_debounce (value : number) : M unit :=
  digits <- lift (format_d value) ;;
  _setvalue ("d" ++ digits) value "debounce time (ms)" 0 999999 "ms".

Definition set_muempp (value : number) : M unit :=
  digits <- lift (format_d value) ;;
  _setvalue ("m" ++ digits) value "µm per Pulse" 0 999999999 "µm/pulse".

Definition set_vcrit (value : number) : M unit :=
  millivolts <- lift (py_int (times1000 value)) ;;
  digits <- lift (format_d (Int millivolts)) ;;
  _setvalue ("t" ++ digits) value "V(crit)" 0 15 "V".

(** [self.set_debounce(DEFAULTS['debounce_ms'])] and the two calls
    after it: an exception ends the sequence. *)
Definition set_defaults : M unit :=
  debounce_ms <- lift (getitem DEFAULTS "debounce_ms") ;;
  set_debounce debounce_ms ;;
  muempp <- lift (getitem DEFAULTS "muempp_µm") ;;
  set_muempp muempp ;;
  vwarn_v <- lift (getitem DEFAULTS "vwarn_v") ;;
  set_vcrit vwarn_v.

(** [read]: the five assignments of the [try] block work on the list
    [parts] itself, and that list is what either [ReplyError] carries. *)
Definition read : M (list pyval) :=
  reply <- _runcmd "r" ;;
  let parts := map PyStr (split ";" reply) in
  if negb (List.length parts =? 5)%nat then
    raise (ReplyError
             "Incorrect reply received (Number of items missmatched)."
             (Some parts))
  else
    match run_assignments read_assignments parts with
    | (parts', None) => ret parts'
    | (parts', Some ValueError) =>
        raise (ReplyError "Could not convert data." (Some parts'))
    | (_, Some e) => raise e
    end.

End Model.

(** ** [flash_fw]: the external programmer *)

(** What [flash_fw] does with the [avrdude] process. *)
Inductive proc_event : Type :=
| EvPopen (args : list string)
| EvWait (seconds : Z)
| EvKill.

(** A started process: the time in milliseconds after which it exits by
    itself ([None] when it never does) and the exit code it then has. *)
Record process : Type := {
  lifetime : option Z;
  exit_code : Z
}.

(** [p.wait(seconds)]: the return code once the process has exited, [None]
    for [subprocess.TimeoutExpired]. *)
Definition wait (seconds : Z) (p : process) : option Z :=
  match lifetime p with
  | Some t => if t <=? 1000 * seconds then Some (exit_code p) else None
  | None => None
  end.

Section Flash.

(** [os.path.abspath(os.path.join('.', ...))] depends on the working
    directory and the platform. *)
Variable abspath_join : list string -> string.

(** [subprocess.Popen(args, ...)]: the process started, [None] when the
    program cannot be started. *)
Variable Popen : list string -> option process.

Definition avrdude_args (port : string) : list string :=
  [abspath_join ["."; "avrdude"; "avrdude.exe"];
   "-C"; abspath_join ["."; "avrdude"; "avrdude.conf"];
   "-v";
   "-p"; "atmega328p";
   "-c"; "arduino";
   "-P"; port;
   "-b"; "115200";
   "-D";
   "-U"; "flash:w:" ++ abspath_join ["."; "mph_meter.ino.standard.hex"]
                    ++ ":i"].

(** The value returned and what was done with the process. *)
Definition flash_fw (port : string) : result bool * list proc_event :=
  let args := avrdude_args port in
  match Popen args with
  | Some avrdude =>
      match wait 10 avrdude with
      | None => (Ok false, [EvPopen args; EvWait 10; EvKill])
      | Some returncode =>
          if negb (returncode =? 0) then (Ok false, [EvPopen args; EvWait 10])
          else (Ok true, [EvPopen args; EvWait 10])
      end
  | None => (Raise OSError, [EvPopen args])
  end.

End Flash.

(** ** The view [TkApp]: the commands of its buttons *)

Module View.

(** What the view lets the user see or hear: a message box with its title
    and message, or the bell. *)
Inductive dialog : Type :=
| showinfo (title message : string)
| showwarning (title message : string)
| showerror (title message : string)
| bell.

(** The entry types of [_validate_type]. *)
Inductive entry_type : Type :=
| type_int
| type_float.

(** The view: its [MphMeter]; the content of the variable of the port
    (a [StringVar] the read-only combobox fills); the values of the five
    other tkinter variables; the state last configured for the widgets of
    [_need_connection]; the dialogs shown, oldest first; what was done
    with the programmer. *)
Record TkApp : Type := {
  mphmeter : world;
  port_variable : string;
  variables : list (string * pyval);
  need_connection : string;
  dialogs : list dialog;
  programmer : list proc_event
}.

Definition V (A : Type) : Type := TkApp -> result A * TkApp.

Definition vret {A} (a : A) : V A := fun app => (Ok a, app).

Definition vbind {A B} (c : V A) (k : A -> V B) : V B :=
  fun app =>
    match c app with
    | (Ok a, app') => k a app'
    | (Raise e, app') => (Raise e, app')
    end.

Notation "'let*' x ':=' c 'in' k" := (vbind c (fun x => k))
  (at level 10, x name, c at level 100, k at level 200).
Notation "c '>>' k" := (vbind c (fun _ => k))
  (at level 62, right associativity).

(** [try: body] with the [except] clauses [handlers]: [None] for an
    exception no clause names. *)
Definition try_ (body : V unit) (handlers : exn -> option (V unit))
  : V unit :=
  fun app =>
    match body app with
    | (Raise e, app') =>
        match handlers e with
        | Some handler => handler app'
        | None => (Raise e, app')
        end
    | r => r
    end.

(** The view with one field replaced. *)
Definition set_mphmeter (w : world) (app : TkApp) : TkApp :=
  {| mphmeter := w;
     port_variable := port_variable app;
     variables := variables app;
     need_connection := need_connection app;
     dialogs := dialogs app;
     programmer := programmer app |}.

Definition set_variables (vars : list (string * pyval)) (app : TkApp)
  : TkApp :=
  {| mphmeter := mphmeter app;
     port_variable := port_variable app;
     variables := vars;
     need_connection := need_connection app;
     dialogs := dialogs app;
     programmer := programmer app |}.

Definition set_need_connection (state : string) (app : TkApp) : TkApp :=
  {| mphmeter := mphmeter app;
     port_variable := port_variable app;
     variables := variables app;
     need_connection := state;
     dialogs := dialogs app;
     programmer := programmer app |}.

Definition add_dialog (d : dialog) (app : TkApp) : TkApp :=
  {| mphmeter := mphmeter app;
     port_variable := port_variable app;
     variables := variables app;
     need_connection := need_connection app;
     dialogs := dialogs app ++ [d];
     programmer := programmer app |}.

Definition add_programmer (events : list proc_event) (app : TkApp) : TkApp :=
  {| mphmeter := mphmeter app;
     port_variable := port_variable app;
     variables := variables app;
     need_connection := need_connection app;
     dialogs := dialogs app;
     programmer := programmer app ++ events |}.

(** A method of [self.mphmeter]. *)
Definition meter {A} (m : M A) : V A :=
  fun app =>
    let (r, w) := m (mphmeter app) in (r, set_mphmeter w app).

(** A call of [messagebox], or of [self.bell]. *)
Definition show (d : dialog) : V unit :=
  fun app => (Ok tt, add_dialog d app).

(** [for widget in self._need_connection: widget.configure(state=state)] *)
Definition configure (state : string) : V unit :=
  fun app => (Ok tt, set_need_connection state app).

(** [self.mphmeter.is_connected] *)
Definition is_connected : V bool :=
  fun app => (Ok (is_open (_serial (mphmeter app))), app).

(** [self.variables['port'].get()] *)
Definition port_get : V string :=
  fun app => (Ok (port_variable app), app).

(** The dictionary of variables with [value] under [key]; [None] when the
    dictionary has no such key. *)
Fixpoint assign (vars : list (string * pyval)) (key : string) (value : pyval)
  : option (list (string * pyval)) :=
  match vars with
  | (k, x) :: rest =>
      if (k =? key)%string then Some ((k, value) :: rest)
      else match assign rest key value with
           | Some rest' => Some ((k, x) :: rest')
           | None => None
           end
  | [] => None
  end.

(** [self.variables[key].set(value)] *)
Definition variable_set (key : string) (value : pyval) : V unit :=
  fun app =>
    match assign (variables app) key value with
    | Some vars => (Ok tt, set_variables vars app)
    | None => (Raise KeyError, app)
    end.

(** The view as [__init__] leaves it, with [port] chosen in the
    combobox. *)
Definition started (port : string) : TkApp :=
  {| mphmeter := MphMeter;
     port_variable := port;
     variables := [("version", PyStr ""); ("vbat_v", PyFloat 0);
                   ("muempp_µm", PyInt 0); ("debounce_ms", PyInt 0);
                   ("vwarn_v", PyFloat 0)];
     need_connection := "disabled";
     dialogs := [];
     programmer := [] |}.

Definition connect_first : dialog :=
  showwarning "ERROR" "Connect to mph Meter over COM-Port first!".

Definition connection_lost : dialog :=
  showerror "ERROR" "Connection to mph Meter lost! Please reconnect.".

Section Commands.

Variable env : environment.
Variable abspath_join : list string -> string.
Variable Popen : list string -> option process.

(** [MphMeter.flash_fw(port)] *)
Definition flash (port : string) : V bool :=
  fun app =>
    let (r, events) := flash_fw abspath_join Popen port in
    (r, add_programmer events app).

Definition _disconnect : V unit :=
  meter disconnect >> configure "disabled".

(** [values[i]] is taken with a default: [read] returns five values. *)
Definition _read_values : V unit :=
  let* connected := is_connected in
  if negb connected then show connect_first
  else
    try_
      (let* values := meter (read env) in
       variable_set "muempp_µm" (nth 0 values (PyStr "")) >>
       variable_set "debounce_ms" (nth 1 values (PyStr "")) >>
       variable_set "version" (nth 2 values (PyStr "")) >>
       variable_set "vwarn_v" (nth 3 values (PyStr "")) >>
       variable_set "vbat_v" (nth 4 values (PyStr "")))
      (fun e =>
         match e with
         | ReplyError text _ => Some (show (showerror "ERROR" text))
         | LostConnectionError => Some (show connection_lost >> _disconnect)
         | _ => None
         end).

Definition _onconnect : V unit :=
  let* port := port_get in
  if (port =? "")%string then
    show (showwarning "ERROR" "Select port before opening!")
  else
    let* r := meter (connect env port) in
    if negb (fst r) then show (showerror "ERROR" (snd r))
    else
      configure "enabled" >>
      _read_values >>
      show (showinfo "Success"
              ("Successfully connected to Mph Meter at " ++ port)).

Definition _ondefault : V unit :=
  let* connected := is_connected in
  if negb connected then show connect_first
  else
    try_
      (meter (set_defaults env) >>
       _read_values >>
       show (showinfo "Success" "Restored Defaults"))
      (fun e =>
         match e with
         | ReplyError text _ => Some (show (showerror "ERROR" text))
         | LostConnectionError => Some (show connection_lost >> _disconnect)
         | _ => None
         end).

Definition _onfwupdate : V unit :=
  _disconnect >>
  let* port := port_get in
  if (port =? "")%string then
    show (showwarning "ERROR" "Select port before opening!")
  else
    show (showwarning "Info"
            "Press the RESET button of the ARDUINO and release it right after clicking the OK button.") >>
    let* flashed := flash port in
    if flashed then
      show (showinfo "Info"
              ("Firmware update successfull!" ++ LF
               ++ "Please update values or restore defaults MANUALLY!"))
    else show (showerror "ERROR" "Firmware update failed!").

(** [_setvalue(var, setfunc)], with what [var.get()] gives: a number, or
    [None] when it raises [TclError]. *)
Definition _setvalue (var_get : option number) (setfunc : number -> M unit)
  : V unit :=
  let* connected := is_connected in
  if negb connected then show connect_first
  else
    match var_get with
    | None => show (showwarning "ERROR" "Fill field before setting value!")
    | Some value =>
        try_ (meter (setfunc value))
          (fun e =>
             match e with
             | ReplyError _ _ =>
                 Some (show (showerror "ERROR"
                               "Could not set new v_warn value!"))
             | LostConnectionError =>
                 Some (show connection_lost >> _disconnect)
             | BoundaryError text _ => Some (show (showerror "ERROR" text))
             | _ => None
             end)
    end.

(** [_validate_type(value, _type)] for [int] and [float]. *)
Definition _validate_type (value : string) (_type : entry_type) : V bool :=
  if (value =? "")%string then vret true
  else
    let converts :=
      match _type with
      | type_int =>
          match int_of_string value with Some _ => true | None => false end
      | type_float =>
          match float_of_string value with Some _ => true | None => false end
      end in
    if converts then vret true else show bell >> vret false.

End Commands.

(** The names of the five variables [_read_values] sets, as [__init__]
    declares them. *)
Definition declared (vars : list (string * pyval)) : Prop :=
  map fst vars = ["version"; "vbat_v"; "muempp_µm"; "debounce_ms"; "vwarn_v"].


End View.

(** * Properties of the model *)

(** ** Vocabulary of the statements *)

(** The three programmable parameters and their table of bounds. *)
Inductive parameter : Type :=
| Debounce
| MicronsPerPulse
| CriticalVoltage.

Definition low (p : parameter) : Z := 0.

Definition high (p : parameter) : Z :=
  match p with
  | Debounce => 999999
  | MicronsPerPulse => 999999999
  | CriticalVoltage => 15
  end.

Definition name_of (p : parameter) : string :=
  match p with
  | Debounce => "debounce time (ms)"
  | MicronsPerPulse => "µm per Pulse"
  | CriticalVoltage => "V(crit)"
  end.

Definition unit_of (p : parameter) : string :=
  match p with
  | Debounce => "ms"
  | MicronsPerPulse => "µm/pulse"
  | CriticalVoltage => "V"
  end.

(** The message of the [BoundaryError] of a parameter: it names both
    bounds. *)
Definition boundary_text (p : parameter) : string :=
  name_of p ++ " must be between " ++ dec (low p) ++ unit_of p ++ " and "
            ++ dec (high p) ++ unit_of p ++ "!".

(** The setter of a parameter. *)
Definition setValue (env : environment) (p : parameter) (value : number)
  : M unit :=
  match p with
  | Debounce => set_debounce env value
  | MicronsPerPulse => set_muempp env value
  | CriticalVoltage => set_vcrit env value
  end.

(** The command a setter builds from the value before it calls
    [_setvalue], or the exception building it raises. *)
Definition command (p : parameter) (value : number) : result string :=
  match p with
  | Debounce =>
      match format_d value with
      | Ok digits => Ok ("d" ++ digits)
      | Raise e => Raise e
      end
  | MicronsPerPulse =>
      match format_d value with
      | Ok digits => Ok ("m" ++ digits)
      | Raise e => Raise e
      end
  | CriticalVoltage =>
      match py_int (times1000 value) with
      | Ok millivolts => Ok ("t" ++ dec millivolts)
      | Raise e => Raise e
      end
  end.

(** The bytes of a command line. *)
Definition line_of (cmd : string) : list Byte.byte :=
  list_byte_of_string (cmd ++ LF).

(** The outcome of the three calls of [_runcmd] on the port, from the trace
    [t] on: the bytes [read_until] returns, or [Fails] when one of [write],
    [flush] and [read_until] raises. *)
Definition exchange (env : environment) (t : list event)
  (data : list Byte.byte) : outcome :=
  match env t (EvWrite data) with
  | Fails => Fails
  | Returns _ =>
      match env (t ++ [EvWrite data])%list EvFlush with
      | Fails => Fails
      | Returns _ =>
          env ((t ++ [EvWrite data]) ++ [EvFlush])%list
              (EvReadUntil [Byte.x0a])
      end
  end.

(** The state after the three calls. *)
Definition after_exchange (data : list Byte.byte) (w : world) : world :=
  log (EvReadUntil [Byte.x0a]) (log EvFlush (log (EvWrite data) w)).

(** The text [_runcmd] makes of the bytes read. *)
Definition reply_of (line : list Byte.byte) : string :=
  strip (decode_ascii_ignore line).

(** Every character of the string is ASCII. *)
Definition ascii_only (s : string) : bool :=
  forallb is_ascii_byte (list_byte_of_string s).

(** What [_setvalue] makes of the reply to its command. *)
Definition reply_result (name reply : string) : result unit :=
  if (reply =? "ERR")%string then
    Raise (ReplyError ("Error setting " ++ name ++ " value") None)
  else if (reply =? "")%string then
    Raise (ReplyError "No reply received" None)
  else if negb (reply =? "OK")%string then
    Raise (ReplyError ("Incorrect reply received: " ++ repr reply) None)
  else Ok tt.

(** [w'] continues [w] with the write of [data]. *)
Definition sends (w w' : world) (data : list Byte.byte) : Prop :=
  exists rest, trace w' = (trace w ++ EvWrite data :: rest)%list.

(** Python's [round(x)] for the finite binary64 number [m * 2^e]: the
    nearest integer, the even one of two that are equally near. *)
Definition round_mantissa (m : positive) (e : Z) : Z :=
  if 0 <=? e then Z.shiftl (Zpos m) e
  else
    let q := Z.shiftr (Zpos m) (- e) in
    let r := Zpos m - Z.shiftl q (- e) in
    match 2 * r ?= Z.shiftl 1 (- e) with
    | Lt => q
    | Gt => q + 1
    | Eq => if Z.even q then q else q + 1
    end.

(** The conversion as the specification words it: [round(value*1000)]. *)
Definition round_millivolts (value : number) : result Z :=
  match times1000 value with
  | Int z => Ok z
  | Float f =>
      match Prim2SF f with
      | S754_nan => Raise ValueError
      | S754_infinity _ => Raise OverflowError
      | S754_zero _ => Ok 0
      | S754_finite s m e => Ok (cond_Zopp s (round_mantissa m e))
      end
  end.

(** The command is lost, or the reply to it is not [OK]. *)
Definition not_accepted (env : environment) (w : world) (cmd : string)
  : Prop :=
  exchange env (trace w) (line_of cmd) = Fails
  \/ (exists line, exchange env (trace w) (line_of cmd) = Returns line
                   /\ reply_of line <> "OK").

(** The reply to the command is [OK]. *)
Definition accepted (env : environment) (w : world) (cmd : string) : Prop :=
  exists line, exchange env (trace w) (line_of cmd) = Returns line
               /\ reply_of line = "OK".

(** The state [disconnect] leaves. *)
Definition closed (w : world) : world :=
  if is_open (_serial w) then set_is_open false (log EvClose w) else w.

(** The state after [disconnect], the assignment of the port and the call
    of [open], before the port counts as open. *)
Definition opening (p : string) (w : world) : world :=
  log (EvOpen p) (set_port p (closed w)).

(** ** Example devices and programmers *)

(** A meter whose port [p] is open, with no call made yet. *)
Definition opened_on (p : string) : world :=
  set_is_open true (set_port p MphMeter).

(** A device that answers every command with the line [reply]. *)
Definition answering (reply : string) : environment :=
  fun _ ev =>
    match ev with
    | EvReadUntil _ => Returns (line_of reply)
    | _ => Returns []
    end.

(** The number of calls of [read_until] in a trace. *)
Fixpoint reads (t : list event) : nat :=
  match t with
  | EvReadUntil _ :: t' => S (reads t')
  | _ :: t' => reads t'
  | [] => O
  end.

(** A device that gives the bytes of [script] to the successive reads, and
    nothing once the script is over. *)
Definition scripted (script : list (list Byte.byte)) : environment :=
  fun t ev =>
    match ev with
    | EvReadUntil _ => Returns (nth (reads t) script [])
    | _ => Returns []
    end.

(** A port that opens and then fails on every call. *)
Definition unplugged : environment :=
  fun _ ev =>
    match ev with
    | EvOpen _ => Returns []
    | _ => Fails
    end.

(** The paths of the examples: the parts joined with a slash. *)
Definition slash_join (parts : list string) : string :=
  String.concat "/" parts.

(** A programmer that never ends, one that ends after 2.5 s with the
    exit code 1, and one that ends after 4 s with the exit code 0. *)
Definition hanging : process := {| lifetime := None; exit_code := 0 |}.

Definition failing : process := {| lifetime := Some 2500; exit_code := 1 |}.

Definition flashing : process := {| lifetime := Some 4000; exit_code := 0 |}.

(** ** [_runcmd] *)

Ltac run :=
  unfold _runcmd, _setvalue, read, disconnect, Serial_write, Serial_flush,
    Serial_read_until, Serial_close, call, try_except, bind, lift, ret,
    raise, get_is_open.

Lemma runcmd_closed env cmd w :
  is_open (_serial w) = false ->
  _runcmd env cmd w = (Raise NotConnectedError, w).
Proof.
  intros Hc. run. rewrite Hc. reflexivity.
Qed.

Lemma runcmd_returns env cmd data line w :
  is_open (_serial w) = true ->
  encode_ascii (cmd ++ LF) = Ok data ->
  exchange env (trace w) data = Returns line ->
  _runcmd env cmd w = (Ok (reply_of line), after_exchange data w).
Proof.
  intros Ho He Hx. unfold exchange in Hx. run.
  rewrite Ho, He. cbn [negb]. rewrite Ho.
  destruct (env (trace w) (EvWrite data)); [discriminate|].
  cbn. rewrite Ho.
  destruct (env (trace w ++ [EvWrite data])%list EvFlush); [discriminate|].
  cbn. rewrite Ho, Hx. reflexivity.
Qed.

Lemma runcmd_fails env cmd data w :
  is_open (_serial w) = true ->
  encode_ascii (cmd ++ LF) = Ok data ->
  exchange env (trace w) data = Fails ->
  exists calls,
    written calls = []
    /\ _runcmd env cmd w
    = (Raise LostConnectionError,
       set_is_open false
         {| _serial := _serial w;
            trace := (trace w ++ EvWrite data :: calls ++ [EvClose])%list |}).
Proof.
  intros Ho He Hx. unfold exchange in Hx. run.
  rewrite Ho, He. cbn [negb]. rewrite Ho.
  destruct (env (trace w) (EvWrite data)).
  - exists []. split; [reflexivity|].
    cbn. rewrite Ho. unfold log, set_is_open. cbn.
    rewrite <- app_assoc. reflexivity.
  - cbn. rewrite Ho.
    destruct (env (trace w ++ [EvWrite data])%list EvFlush).
    + exists [EvFlush]. split; [reflexivity|].
      cbn. rewrite Ho. unfold log, set_is_open. cbn.
      rewrite <- !app_assoc. reflexivity.
    + cbn. rewrite Ho, Hx. exists [EvFlush; EvReadUntil [Byte.x0a]].
      split; [reflexivity|].
      cbn. rewrite Ho. unfold log, set_is_open. cbn.
      rewrite <- !app_assoc. reflexivity.
Qed.

(** ** Commands are ASCII *)

Lemma ascii_only_cons c s :
  ascii_only (String c s) = is_ascii_byte (byte_of_ascii c) && ascii_only s.
Proof. reflexivity. Qed.

Lemma ascii_only_app s t :
  ascii_only (s ++ t) = ascii_only s && ascii_only t.
Proof.
  induction s as [|c s IH]; [reflexivity|].
  cbn [append]. rewrite !ascii_only_cons, IH. apply andb_assoc.
Qed.

Lemma ascii_only_uint (d : Decimal.uint) :
  ascii_only (NilEmpty.string_of_uint d) = true.
Proof.
  induction d; cbn [NilEmpty.string_of_uint]; try reflexivity;
    rewrite ascii_only_cons, IHd; reflexivity.
Qed.

Lemma ascii_only_dec z : ascii_only (dec z) = true.
Proof.
  unfold dec, NilZero.string_of_int, NilZero.string_of_uint.
  destruct (Z.to_int z) as [d|d]; destruct d; try reflexivity;
    try apply ascii_only_uint;
    rewrite ascii_only_cons, ascii_only_uint; reflexivity.
Qed.

Lemma encode_ascii_only s :
  ascii_only s = true -> encode_ascii s = Ok (list_byte_of_string s).
Proof.
  intros H. unfold encode_ascii. unfold ascii_only in H. rewrite H.
  reflexivity.
Qed.

Lemma command_encodes p value cmd :
  command p value = Ok cmd ->
  encode_ascii (cmd ++ LF) = Ok (line_of cmd).
Proof.
  intros H. apply encode_ascii_only. rewrite ascii_only_app.
  assert (ascii_only cmd = true) as ->; [|reflexivity].
  destruct p; cbn [command] in H.
  - destruct value; cbn in H; [|discriminate].
    injection H as <-. cbn [append].
    rewrite ascii_only_cons, ascii_only_dec. reflexivity.
  - destruct value; cbn in H; [|discriminate].
    injection H as <-. cbn [append].
    rewrite ascii_only_cons, ascii_only_dec. reflexivity.
  - destruct (py_int (times1000 value)); [|discriminate].
    injection H as <-. cbn [append].
    rewrite ascii_only_cons, ascii_only_dec. reflexivity.
Qed.

(** ** Comparison with a bound *)

Lemma compare_shift_pos (a b y n : Z) :
  0 <= n -> a <= b -> (Z.shiftl a n ?= y) = Eq -> (Z.shiftl b n ?= y) <> Lt.
Proof.
  intros Hn Hab He. rewrite Z.shiftl_mul_pow2 in * by assumption.
  apply Z.compare_eq in He. intros Hlt. rewrite Z.compare_lt_iff in Hlt.
  assert (0 < 2 ^ n) by (apply Z.pow_pos_nonneg; lia). nia.
Qed.

Lemma compare_shift_neg (a b y n : Z) :
  0 <= n -> a <= b -> (Z.shiftl b n ?= y) = Eq -> (Z.shiftl a n ?= y) <> Gt.
Proof.
  intros Hn Hab He. rewrite Z.shiftl_mul_pow2 in * by assumption.
  apply Z.compare_eq in He. intros Hgt. rewrite Z.compare_gt_iff in Hgt.
  assert (0 < 2 ^ n) by (apply Z.pow_pos_nonneg; lia). nia.
Qed.

(** A value equal to a bound is at most every larger bound. *)
Lemma eq_low_le_high a b value :
  a <= b -> num_eq_Z value a = true -> num_le_Z value b = true.
Proof.
  unfold num_eq_Z, num_le_Z. intros Hab.
  destruct value as [y|f]; cbn [compare_Z_number].
  - destruct (a ?= y) eqn:E; try discriminate. intros _.
    apply Z.compare_eq in E. subst y.
    destruct (b ?= a) eqn:E'; try reflexivity.
    rewrite Z.compare_lt_iff in E'. lia.
  - unfold compare_Z_float. destruct (Prim2SF f) as [s|s| |s m e].
    + destruct (a ?= 0) eqn:E; try discriminate. intros _.
      apply Z.compare_eq in E. subst a.
      destruct (b ?= 0) eqn:E'; try reflexivity.
      rewrite Z.compare_lt_iff in E'. lia.
    + destruct s; discriminate.
    + discriminate.
    + destruct (0 <=? e) eqn:Ee.
      * destruct (a ?= Z.shiftl (cond_Zopp s (Z.pos m)) e) eqn:E;
          try discriminate. intros _.
        apply Z.compare_eq in E. rewrite <- E.
        destruct (b ?= a) eqn:E'; try reflexivity.
        rewrite Z.compare_lt_iff in E'. lia.
      * destruct (Z.shiftl a (- e) ?= cond_Zopp s (Z.pos m)) eqn:E;
          try discriminate. intros _.
        apply Z.leb_gt in Ee.
        pose proof (compare_shift_pos a b _ (- e) ltac:(lia) Hab E) as Hn.
        destruct (Z.shiftl b (- e) ?= cond_Zopp s (Z.pos m));
          try reflexivity. congruence.
Qed.

(** A value equal to a bound is at least every smaller bound. *)
Lemma eq_high_ge_low a b value :
  a <= b -> num_eq_Z value b = true -> Z_le_num a value = true.
Proof.
  unfold num_eq_Z, Z_le_num. intros Hab.
  destruct value as [y|f]; cbn [compare_Z_number].
  - destruct (b ?= y) eqn:E; try discriminate. intros _.
    apply Z.compare_eq in E. subst y.
    destruct (a ?= b) eqn:E'; try reflexivity.
    rewrite Z.compare_gt_iff in E'. lia.
  - unfold compare_Z_float. destruct (Prim2SF f) as [s|s| |s m e].
    + destruct (b ?= 0) eqn:E; try discriminate. intros _.
      apply Z.compare_eq in E. subst b.
      destruct (a ?= 0) eqn:E'; try reflexivity.
      rewrite Z.compare_gt_iff in E'. lia.
    + destruct s; discriminate.
    + discriminate.
    + destruct (0 <=? e) eqn:Ee.
      * destruct (b ?= Z.shiftl (cond_Zopp s (Z.pos m)) e) eqn:E;
          try discriminate. intros _.
        apply Z.compare_eq in E. rewrite <- E.
        destruct (a ?= b) eqn:E'; try reflexivity.
        rewrite Z.compare_gt_iff in E'. lia.
      * destruct (Z.shiftl b (- e) ?= cond_Zopp s (Z.pos m)) eqn:E;
          try discriminate. intros _.
        apply Z.leb_gt in Ee.
        pose proof (compare_shift_neg a b _ (- e) ltac:(lia) Hab E) as Hn.
        destruct (Z.shiftl a (- e) ?= cond_Zopp s (Z.pos m));
          try reflexivity. congruence.
Qed.

Lemma eq_bound_le value z :
  num_eq_Z value z = true -> Z_le_num z value = true /\ num_le_Z value z = true.
Proof.
  unfold num_eq_Z, Z_le_num, num_le_Z.
  destruct (compare_Z_number z value) as [[| |]|]; try discriminate.
  split; reflexivity.
Qed.

Lemma lt_low_not_le value z :
  num_lt_Z value z = true -> Z_le_num z value = false.
Proof.
  unfold num_lt_Z, Z_le_num.
  destruct (compare_Z_number z value) as [[| |]|]; try discriminate.
  reflexivity.
Qed.

Lemma gt_high_not_le value z :
  num_gt_Z value z = true -> num_le_Z value z = false.
Proof.
  unfold num_gt_Z, num_le_Z.
  destruct (compare_Z_number z value) as [[| |]|]; try discriminate.
  reflexivity.
Qed.

(** ** [_setvalue] *)

Lemma after_exchange_sends data w : sends w (after_exchange data w) data.
Proof.
  exists [EvFlush; EvReadUntil [Byte.x0a]].
  unfold after_exchange, log. cbn. rewrite <- !app_assoc. reflexivity.
Qed.

Lemma setvalue_closed env cmd value name b_low b_high unit w :
  is_open (_serial w) = false ->
  _setvalue env cmd value name b_low b_high unit w
  = (Raise NotConnectedError, w).
Proof.
  intros Hc. unfold _setvalue, bind, get_is_open. rewrite Hc. reflexivity.
Qed.

Lemma setvalue_out_of_bounds env cmd value name b_low b_high unit w :
  is_open (_serial w) = true ->
  Z_le_num b_low value && num_le_Z value b_high = false ->
  _setvalue env cmd value name b_low b_high unit w
  = (Raise (BoundaryError
              (name ++ " must be between " ++ dec b_low ++ unit ++ " and "
                    ++ dec b_high ++ unit ++ "!") value), w).
Proof.
  intros Ho Hb. unfold _setvalue, bind, get_is_open, raise.
  rewrite Ho, Hb. reflexivity.
Qed.

Lemma setvalue_returns env cmd data line value name b_low b_high unit w :
  is_open (_serial w) = true ->
  Z_le_num b_low value && num_le_Z value b_high = true ->
  encode_ascii (cmd ++ LF) = Ok data ->
  exchange env (trace w) data = Returns line ->
  _setvalue env cmd value name b_low b_high unit w
  = (reply_result name (reply_of line), after_exchange data w).
Proof.
  intros Ho Hb He Hx.
  pose proof (runcmd_returns env cmd data line w Ho He Hx) as Hr.
  unfold _setvalue, bind, get_is_open, raise, ret in *.
  rewrite Ho, Hb. cbn [negb]. rewrite Hr. unfold reply_result.
  destruct (reply_of line =? "ERR")%string; [reflexivity|].
  destruct (reply_of line =? "")%string; [reflexivity|].
  destruct (reply_of line =? "OK")%string; reflexivity.
Qed.

Lemma setvalue_fails env cmd data value name b_low b_high unit w :
  is_open (_serial w) = true ->
  Z_le_num b_low value && num_le_Z value b_high = true ->
  encode_ascii (cmd ++ LF) = Ok data ->
  exchange env (trace w) data = Fails ->
  exists calls,
    written calls = []
    /\ _setvalue env cmd value name b_low b_high unit w
    = (Raise LostConnectionError,
       set_is_open false
         {| _serial := _serial w;
            trace := (trace w ++ EvWrite data :: calls ++ [EvClose])%list |}).
Proof.
  intros Ho Hb He Hx.
  destruct (runcmd_fails env cmd data w Ho He Hx) as (calls & Hw & Hr).
  exists calls. split; [exact Hw|]. unfold _setvalue, bind, get_is_open.
  rewrite Ho, Hb. cbn [negb]. rewrite Hr. reflexivity.
Qed.

(** In bounds, the command is written and no [BoundaryError] is raised. *)
Lemma setvalue_in_bounds env cmd data value name b_low b_high unit w :
  is_open (_serial w) = true ->
  Z_le_num b_low value && num_le_Z value b_high = true ->
  encode_ascii (cmd ++ LF) = Ok data ->
  sends w (snd (_setvalue env cmd value name b_low b_high unit w)) data
  /\ forall text v,
       fst (_setvalue env cmd value name b_low b_high unit w)
       <> Raise (BoundaryError text v).
Proof.
  intros Ho Hb He.
  destruct (exchange env (trace w) data) as [|line] eqn:Hx.
  - destruct (setvalue_fails env cmd data value name b_low b_high unit w
                Ho Hb He Hx) as (calls & _ & ->).
    split; [exists (calls ++ [EvClose])%list; reflexivity|].
    intros text v; discriminate.
  - rewrite (setvalue_returns env cmd data line value name b_low b_high unit
               w Ho Hb He Hx).
    split; [apply after_exchange_sends|].
    intros text v. cbn [fst]. unfold reply_result.
    destruct (reply_of line =? "ERR")%string; [discriminate|].
    destruct (reply_of line =? "")%string; [discriminate|].
    destruct (reply_of line =? "OK")%string; discriminate.
Qed.

(** A setter whose command can be built is [_setvalue] on that command and
    the bounds of the table. *)
Lemma setValue_command env p value cmd w :
  command p value = Ok cmd ->
  setValue env p value w
  = _setvalue env cmd value (name_of p) (low p) (high p) (unit_of p) w.
Proof.
  intros H. destruct p; cbn [command setValue] in *.
  - destruct value; cbn in H; [|discriminate]. injection H as <-.
    reflexivity.
  - destruct value; cbn in H; [|discriminate]. injection H as <-.
    reflexivity.
  - unfold set_vcrit, bind, lift.
    destruct (py_int (times1000 value)); [|discriminate].
    injection H as <-. reflexivity.
Qed.

(** A setter whose command cannot be built raises what building it raises,
    and leaves the state as it is. *)
Lemma setValue_no_command env p value e w :
  command p value = Raise e ->
  setValue env p value w = (Raise e, w).
Proof.
  intros H. destruct p; cbn [command setValue] in *.
  - destruct value; cbn in H; [discriminate|]. injection H as <-.
    reflexivity.
  - destruct value; cbn in H; [discriminate|]. injection H as <-.
    reflexivity.
  - unfold set_vcrit, bind, lift.
    destruct (py_int (times1000 value)); [discriminate|].
    injection H as <-. reflexivity.
Qed.

(** [set_defaults] is the three setters in a row, on the values of
    [DEFAULTS]. *)
Lemma set_defaults_sequence env w :
  set_defaults env w
  = (set_debounce env (Int 0) ;;
     set_muempp env (Int 43000) ;;
     set_vcrit env (Float 7.5)) w.
Proof. reflexivity. Qed.

(** * The claims *)

(** ** C1: the bounds of [setValue] *)

(** C1, as amended.  While connected, for every parameter and every value
    from which the setter can build its command (an [int] for debounce and
    micronsPerPulse; for criticalVoltage a number whose product with 1000
    converts to an [int]): a value equal to the low or the high bound
    passes validation, the command is written and no [BoundaryError] is
    raised; a value below the low or above the high bound raises
    [BoundaryError] with the text that names both bounds and with the
    value, and the state is left as it was, so nothing is written. *)
Theorem setValue_bounds env p value cmd w :
  is_open (_serial w) = true ->
  command p value = Ok cmd ->
  ((num_eq_Z value (low p) = true \/ num_eq_Z value (high p) = true) ->
   sends w (snd (setValue env p value w)) (line_of cmd)
   /\ forall text v,
        fst (setValue env p value w) <> Raise (BoundaryError text v))
  /\ ((num_lt_Z value (low p) = true \/ num_gt_Z value (high p) = true) ->
      setValue env p value w
      = (Raise (BoundaryError (boundary_text p) value), w)).
Proof.
  intros Ho Hc. rewrite (setValue_command env p value cmd w Hc).
  assert (low p <= high p) as Hlh by (unfold low, high; destruct p; lia).
  split; intros [H|H].
  - apply setvalue_in_bounds;
      [assumption| |exact (command_encodes p value cmd Hc)].
    destruct (eq_bound_le value (low p) H) as [-> _].
    rewrite (eq_low_le_high (low p) (high p) value Hlh H). reflexivity.
  - apply setvalue_in_bounds;
      [assumption| |exact (command_encodes p value cmd Hc)].
    destruct (eq_bound_le value (high p) H) as [_ ->].
    rewrite (eq_high_ge_low (low p) (high p) value Hlh H). reflexivity.
  - rewrite setvalue_out_of_bounds; [reflexivity|assumption|].
    rewrite (lt_low_not_le value (low p) H). reflexivity.
  - rewrite setvalue_out_of_bounds; [reflexivity|assumption|].
    rewrite (gt_high_not_le value (high p) H). apply andb_false_r.
Qed.

(** The bounds of debounce at work: 999999 is sent, 1000000 is refused. *)
Lemma setValue_bounds_witness :
  sends (opened_on "COM3")
    (snd (setValue (answering "OK") Debounce (Int 999999) (opened_on "COM3")))
    (line_of "d999999")
  /\ setValue (answering "OK") Debounce (Int 1000000) (opened_on "COM3")
     = (Raise (BoundaryError
                 "debounce time (ms) must be between 0ms and 999999ms!"
                 (Int 1000000)), opened_on "COM3").
Proof.
  split.
  - apply (setValue_bounds (answering "OK") Debounce (Int 999999) "d999999"
             (opened_on "COM3")); [reflexivity|reflexivity|].
    right; reflexivity.
  - apply (setValue_bounds (answering "OK") Debounce (Int 1000000) "d1000000"
             (opened_on "COM3")); [reflexivity|reflexivity|].
    right; reflexivity.
Defined.

(** C1 as stated fails: the [float] -1.5 is below the low bound of
    debounce, and on an open port the setter raises [ValueError], not
    [BoundaryError]. *)
Lemma setValue_bounds_not_for_every_value :
  is_open (_serial (opened_on "COM3")) = true
  /\ num_lt_Z (Float (-1.5)) (low Debounce) = true
  /\ setValue (answering "OK") Debounce (Float (-1.5)) (opened_on "COM3")
     = (Raise ValueError, opened_on "COM3")
  /\ forall text v,
       fst (setValue (answering "OK") Debounce (Float (-1.5))
              (opened_on "COM3"))
       <> Raise (BoundaryError text v).
Proof.
  repeat split. intros text v; discriminate.
Qed.

(** ** C10: a [float] for debounce or micronsPerPulse *)

(** C10.  For every [float] (no [float] has the [d] format, whatever its
    value), [set_debounce] and [set_muempp] raise [ValueError] while they
    build the command: in every state, open or closed, and for every
    value, in bounds or not, the state is left as it was and the exception
    is neither [NotConnectedError] nor [BoundaryError]. *)
Theorem float_fails_before_the_checks env f w :
  set_debounce env (Float f) w = (Raise ValueError, w)
  /\ set_muempp env (Float f) w = (Raise ValueError, w)
  /\ fst (set_debounce env (Float f) w) <> Raise NotConnectedError
  /\ fst (set_muempp env (Float f) w) <> Raise NotConnectedError
  /\ forall text v,
       fst (set_debounce env (Float f) w) <> Raise (BoundaryError text v)
       /\ fst (set_muempp env (Float f) w) <> Raise (BoundaryError text v).
Proof.
  repeat split; discriminate.
Qed.

(** ** C7: operations on a closed port *)

(** C7, as amended.  While the port is closed, [_runcmd] with any command,
    [read], [set_defaults] and [setValue] for any parameter with any value
    from which the setter can build its command raise [NotConnectedError]
    and leave the state as it was: no call is made on the port. *)
Theorem closed_port_operations env w :
  is_open (_serial w) = false ->
  (forall cmd, _runcmd env cmd w = (Raise NotConnectedError, w))
  /\ read env w = (Raise NotConnectedError, w)
  /\ set_defaults env w = (Raise NotConnectedError, w)
  /\ forall p value cmd,
       command p value = Ok cmd ->
       setValue env p value w = (Raise NotConnectedError, w).
Proof.
  intros Hc. repeat split.
  - intros cmd. apply runcmd_closed, Hc.
  - unfold read, bind. rewrite (runcmd_closed env "r" w Hc). reflexivity.
  - rewrite set_defaults_sequence. unfold bind.
    change (set_debounce env (Int 0) w) with (setValue env Debounce (Int 0) w).
    rewrite (setValue_command env Debounce (Int 0) "d0" w eq_refl).
    rewrite setvalue_closed by assumption. reflexivity.
  - intros p value cmd H. rewrite (setValue_command env p value cmd w H).
    apply setvalue_closed, Hc.
Qed.

(** A new meter is closed: reading it and setting 7.5 V are refused. *)
Lemma closed_port_operations_witness :
  read (answering "OK") MphMeter = (Raise NotConnectedError, MphMeter)
  /\ setValue (answering "OK") CriticalVoltage (Float 7.5) MphMeter
     = (Raise NotConnectedError, MphMeter).
Proof.
  destruct (closed_port_operations (answering "OK") MphMeter eq_refl)
    as (_ & Hread & _ & Hset).
  split; [exact Hread|].
  exact (Hset CriticalVoltage (Float 7.5) "t7500" eq_refl).
Defined.

(** C7 as stated fails: on a new, closed meter [set_debounce(1.5)] raises
    [ValueError], not [NotConnectedError]. *)
Lemma closed_port_float_not_refused :
  is_open (_serial MphMeter) = false
  /\ setValue (answering "OK") Debounce (Float 1.5) MphMeter
     = (Raise ValueError, MphMeter)
  /\ fst (setValue (answering "OK") Debounce (Float 1.5) MphMeter)
     <> Raise NotConnectedError.
Proof.
  repeat split. discriminate.
Qed.

(** ** C6: an I/O fault during a command, and a reply without terminator *)

(** C6, as amended.  On an open port, when [write], [flush] or
    [read_until] raises [SerialException] during a command, [_runcmd]
    closes the port and raises [LostConnectionError]; from the state it
    leaves, whatever the device does next, [_runcmd], [read] and [setValue]
    (for a value from which the setter can build its command) raise
    [NotConnectedError].  When [read_until] returns, with or without
    the terminator, the reply is the stripped ASCII text of the bytes it
    returned and the port stays open: the empty string when no byte was
    received, never an error. *)
Theorem io_fault_disconnects env cmd data w :
  is_open (_serial w) = true ->
  encode_ascii (cmd ++ LF) = Ok data ->
  (exchange env (trace w) data = Fails ->
   let w' := snd (_runcmd env cmd w) in
   fst (_runcmd env cmd w) = Raise LostConnectionError
   /\ is_open (_serial w') = false
   /\ last (trace w') EvFlush = EvClose
   /\ (forall env' cmd',
         _runcmd env' cmd' w' = (Raise NotConnectedError, w'))
   /\ (forall env', read env' w' = (Raise NotConnectedError, w'))
   /\ (forall env' p value c,
         command p value = Ok c ->
         setValue env' p value w' = (Raise NotConnectedError, w')))
  /\ (forall line,
        exchange env (trace w) data = Returns line ->
        _runcmd env cmd w = (Ok (reply_of line), after_exchange data w)
        /\ is_open (_serial (after_exchange data w)) = true)
  /\ reply_of [] = "".
Proof.
  intros Ho He. split; [|split; [|reflexivity]].
  - intros Hx.
    destruct (runcmd_fails env cmd data w Ho He Hx) as (calls & _ & ->).
    cbn [fst snd].
    set (w' := set_is_open false _).
    assert (is_open (_serial w') = false) as Hc by reflexivity.
    split; [reflexivity|]. split; [exact Hc|].
    split; [|split; [|split]].
    + unfold w', set_is_open. cbn [trace].
      change (EvWrite data :: calls ++ [EvClose])%list
        with ((EvWrite data :: calls) ++ [EvClose])%list.
      rewrite app_assoc. apply last_last.
    + intros env' cmd'. apply runcmd_closed, Hc.
    + intros env'. unfold read, bind.
      rewrite (runcmd_closed env' "r" w' Hc). reflexivity.
    + intros env' p value c H.
      rewrite (setValue_command env' p value c w' H).
      apply setvalue_closed, Hc.
  - intros line Hx. split; [|exact Ho].
    apply runcmd_returns; assumption.
Qed.

(** An unplugged device: the command is lost, the port is closed, the next
    command is refused. *)
Lemma io_fault_disconnects_witness :
  fst (_runcmd unplugged "r" (opened_on "COM3")) = Raise LostConnectionError
  /\ is_open (_serial (snd (_runcmd unplugged "r" (opened_on "COM3")))) = false
  /\ fst (_runcmd (answering "OK") "r"
            (snd (_runcmd unplugged "r" (opened_on "COM3"))))
     = Raise NotConnectedError.
Proof.
  destruct (io_fault_disconnects unplugged "r" (line_of "r")
              (opened_on "COM3") eq_refl eq_refl)
    as [Hfault _].
  destruct (Hfault eq_refl) as (Hr & Hc & _ & Hnext & _).
  split; [exact Hr|]. split; [exact Hc|].
  rewrite (Hnext (answering "OK") "r"). reflexivity.
Defined.

(** C6 as stated fails in its last part: when the two bytes [OK] arrive
    and no terminator follows before the timeout, [read_until] returns
    them and the reply is ["OK"], not the empty string. *)
Lemma timeout_reply_not_empty :
  ~ In Byte.x0a (list_byte_of_string "OK")
  /\ exchange (scripted [list_byte_of_string "OK"])
       (trace (opened_on "COM3")) (line_of "i")
     = Returns (list_byte_of_string "OK")
  /\ fst (_runcmd (scripted [list_byte_of_string "OK"]) "i"
            (opened_on "COM3"))
     = Ok "OK"
  /\ fst (_runcmd (scripted [list_byte_of_string "OK"]) "i"
            (opened_on "COM3"))
     <> Ok "".
Proof.
  repeat split; try discriminate.
  cbn. intros [H|[H|[]]]; discriminate.
Qed.

(** ** C2: the command of criticalVoltage *)

(** While connected, for an in-bounds value whose product with 1000
    [int] converts to [millivolts], [set_vcrit] writes the command [t]
    followed by the decimal digits of [millivolts]. *)
Lemma set_vcrit_sends env value millivolts w :
  is_open (_serial w) = true ->
  Z_le_num 0 value && num_le_Z value 15 = true ->
  py_int (times1000 value) = Ok millivolts ->
  sends w (snd (set_vcrit env value w)) (line_of ("t" ++ dec millivolts)).
Proof.
  intros Ho Hb Hm.
  assert (command CriticalVoltage value = Ok ("t" ++ dec millivolts)) as Hc
      by (cbn [command]; rewrite Hm; reflexivity).
  change (set_vcrit env value w)
    with (setValue env CriticalVoltage value w).
  rewrite (setValue_command env CriticalVoltage value _ w Hc).
  apply setvalue_in_bounds;
    [assumption|exact Hb|exact (command_encodes _ _ _ Hc)].
Qed.

(** C2.  [set_vcrit] misses the millivolts of its value: [int(value*1000)]
    cuts off what the binary64 product lacks.  2.01 V is in bounds, its
    product with 1000 is just below 2010, [round] gives 2010 and the
    command written is [t2009]; [read] turns the 2009 the device then
    reports into 2.009 V, and 2010 into the 2.01 V that was set.  1.001 V
    is written as [t1000] in the same way.  7.5 V, the example of the
    claim, is written as [t7500]. *)
Theorem set_vcrit_misses_a_millivolt :
  Z_le_num 0 (Float 0x1.0147ae147ae14p+1)
    && num_le_Z (Float 0x1.0147ae147ae14p+1) 15 = true
  /\ round_millivolts (Float 0x1.0147ae147ae14p+1) = Ok 2010
  /\ written (trace (snd (set_vcrit (answering "OK")
                            (Float 0x1.0147ae147ae14p+1)
                            (opened_on "COM3"))))
     = [line_of "t2009"]
  /\ to_volts "2009" = Ok (PyFloat 0x1.0126e978d4fdfp+1)
  /\ to_volts "2010" = Ok (PyFloat 0x1.0147ae147ae14p+1)
  /\ Z_le_num 0 (Float 0x1.004189374bc6ap+0)
       && num_le_Z (Float 0x1.004189374bc6ap+0) 15 = true
  /\ round_millivolts (Float 0x1.004189374bc6ap+0) = Ok 1001
  /\ written (trace (snd (set_vcrit (answering "OK")
                            (Float 0x1.004189374bc6ap+0)
                            (opened_on "COM3"))))
     = [line_of "t1000"]
  /\ round_millivolts (Float 7.5) = Ok 7500
  /\ written (trace (snd (set_vcrit (answering "OK") (Float 7.5)
                            (opened_on "COM3"))))
     = [line_of "t7500"].
Proof.
  split; [reflexivity|]. split; [reflexivity|]. split; [reflexivity|].
  split; [vm_compute; reflexivity|]. split; [vm_compute; reflexivity|].
  split; [reflexivity|]. split; [reflexivity|]. split; [reflexivity|].
  split; reflexivity.
Qed.

(** ** C9: [set_defaults] *)

Lemma written_app t t' : written (t ++ t') = (written t ++ written t')%list.
Proof.
  induction t as [|ev t IH]; [reflexivity|].
  destruct ev; cbn; rewrite IH; reflexivity.
Qed.

Lemma written_after_exchange data w :
  written (trace (after_exchange data w)) = (written (trace w) ++ [data])%list.
Proof.
  unfold after_exchange, log. cbn [trace]. rewrite !written_app, <- !app_assoc.
  reflexivity.
Qed.

Lemma reply_result_OK name : reply_result name "OK" = Ok tt.
Proof. reflexivity. Qed.

Lemma reply_result_other name reply :
  reply <> "OK" -> exists e, reply_result name reply = Raise e.
Proof.
  intros Hn. unfold reply_result.
  destruct (reply =? "ERR")%string; [eexists; reflexivity|].
  destruct (reply =? "")%string; [eexists; reflexivity|].
  destruct (String.eqb_spec reply "OK"); [contradiction|].
  eexists; reflexivity.
Qed.

Section Setter.

Variable env : environment.
Variable p : parameter.
Variable value : number.
Variable cmd : string.
Variable w : world.

Hypothesis Hopen : is_open (_serial w) = true.
Hypothesis Hcmd : command p value = Ok cmd.
Hypothesis Hbounds : Z_le_num (low p) value && num_le_Z value (high p) = true.

(** The device accepts the value. *)
Lemma setValue_accepted line :
  exchange env (trace w) (line_of cmd) = Returns line ->
  reply_of line = "OK" ->
  setValue env p value w = (Ok tt, after_exchange (line_of cmd) w).
Proof.
  intros Hx Hr. rewrite (setValue_command env p value cmd w Hcmd).
  rewrite (setvalue_returns env cmd (line_of cmd) line value _ _ _ _ w
             Hopen Hbounds (command_encodes p value cmd Hcmd) Hx).
  rewrite Hr. reflexivity.
Qed.

(** The command is lost or the device does not answer [OK]. *)
Lemma setValue_refused :
  exchange env (trace w) (line_of cmd) = Fails
  \/ (exists line, exchange env (trace w) (line_of cmd) = Returns line
                   /\ reply_of line <> "OK") ->
  exists e,
    fst (setValue env p value w) = Raise e
    /\ written (trace (snd (setValue env p value w)))
       = (written (trace w) ++ [line_of cmd])%list.
Proof.
  rewrite (setValue_command env p value cmd w Hcmd).
  intros [Hx|(line & Hx & Hr)].
  - destruct (setvalue_fails env cmd (line_of cmd) value (name_of p)
                (low p) (high p) (unit_of p) w
                Hopen Hbounds (command_encodes p value cmd Hcmd) Hx)
      as (calls & Hw & ->).
    exists LostConnectionError. split; [reflexivity|].
    cbn [snd trace set_is_open].
    rewrite written_app. cbn [written]. rewrite written_app, Hw.
    reflexivity.
  - rewrite (setvalue_returns env cmd (line_of cmd) line value _ _ _ _ w
               Hopen Hbounds (command_encodes p value cmd Hcmd) Hx).
    destruct (reply_result_other (name_of p) (reply_of line) Hr) as [e He].
    exists e. cbn [fst snd]. rewrite He, written_after_exchange.
    split; reflexivity.
Qed.

End Setter.

(** C9.  [set_defaults] is [set_debounce(0)], then [set_muempp(43000)],
    then [set_vcrit(7.5)].  On an open port: when the three are accepted
    the commands [d0], [m43000] and [t7500] are written in this order;
    when the first is not accepted an exception is raised and only [d0]
    was written; when the first is accepted and the second is not, an
    exception is raised, [d0] and [m43000] were written (debounce is set,
    nothing is rolled back) and [t7500] was not. *)
Theorem set_defaults_order env w :
  is_open (_serial w) = true ->
  let w1 := after_exchange (line_of "d0") w in
  let w2 := after_exchange (line_of "m43000") w1 in
  let w3 := after_exchange (line_of "t7500") w2 in
  set_defaults env w
  = (set_debounce env (Int 0) ;;
     set_muempp env (Int 43000) ;;
     set_vcrit env (Float 7.5)) w
  /\ (accepted env w "d0" -> accepted env w1 "m43000" ->
      accepted env w2 "t7500" ->
      set_defaults env w = (Ok tt, w3)
      /\ written (trace w3)
         = (written (trace w)
              ++ [line_of "d0"; line_of "m43000"; line_of "t7500"])%list)
  /\ (not_accepted env w "d0" ->
      exists e,
        fst (set_defaults env w) = Raise e
        /\ written (trace (snd (set_defaults env w)))
           = (written (trace w) ++ [line_of "d0"])%list)
  /\ (accepted env w "d0" -> not_accepted env w1 "m43000" ->
      exists e,
        fst (set_defaults env w) = Raise e
        /\ written (trace (snd (set_defaults env w)))
           = (written (trace w) ++ [line_of "d0"; line_of "m43000"])%list).
Proof.
  intros Ho w1 w2 w3.
  split; [apply set_defaults_sequence|].
  split; [|split].
  - intros (l1 & X1 & R1) (l2 & X2 & R2) (l3 & X3 & R3).
    split.
    + rewrite set_defaults_sequence. unfold bind.
      change (set_debounce env (Int 0) w)
        with (setValue env Debounce (Int 0) w).
      rewrite (setValue_accepted env Debounce (Int 0) "d0" w
                 Ho eq_refl eq_refl l1 X1 R1).
      change (set_muempp env (Int 43000) (after_exchange (line_of "d0") w))
        with (setValue env MicronsPerPulse (Int 43000) w1).
      rewrite (setValue_accepted env MicronsPerPulse (Int 43000) "m43000" w1
                 Ho eq_refl eq_refl l2 X2 R2).
      change (set_vcrit env (Float 7.5) (after_exchange (line_of "m43000") w1))
        with (setValue env CriticalVoltage (Float 7.5) w2).
      rewrite (setValue_accepted env CriticalVoltage (Float 7.5) "t7500" w2
                 Ho eq_refl eq_refl l3 X3 R3).
      reflexivity.
    + unfold w3, w2, w1. rewrite !written_after_exchange, <- !app_assoc.
      reflexivity.
  - intros Hn.
    destruct (setValue_refused env Debounce (Int 0) "d0" w
                Ho eq_refl eq_refl Hn) as (e & He & Hw).
    exists e. rewrite set_defaults_sequence. unfold bind.
    change (set_debounce env (Int 0) w)
      with (setValue env Debounce (Int 0) w).
    destruct (setValue env Debounce (Int 0) w) as [r w'].
    cbn [fst snd] in He, Hw. subst r. split; [reflexivity|exact Hw].
  - intros (l1 & X1 & R1) Hn.
    destruct (setValue_refused env MicronsPerPulse (Int 43000) "m43000" w1
                Ho eq_refl eq_refl Hn) as (e & He & Hw).
    exists e. rewrite set_defaults_sequence. unfold bind.
    change (set_debounce env (Int 0) w)
      with (setValue env Debounce (Int 0) w).
    rewrite (setValue_accepted env Debounce (Int 0) "d0" w
               Ho eq_refl eq_refl l1 X1 R1).
    change (set_muempp env (Int 43000) (after_exchange (line_of "d0") w))
      with (setValue env MicronsPerPulse (Int 43000) w1).
    destruct (setValue env MicronsPerPulse (Int 43000) w1) as [r w'].
    cbn [fst snd] in He, Hw. subst r. split; [reflexivity|].
    cbn [snd]. rewrite Hw. unfold w1. rewrite written_after_exchange, <- app_assoc.
    reflexivity.
Qed.

(** A device that accepts the first command and answers [ERR] to the
    second: debounce is set, criticalVoltage is never sent. *)
Lemma set_defaults_order_witness :
  exists e,
    fst (set_defaults (scripted [line_of "OK"; line_of "ERR"])
           (opened_on "COM3")) = Raise e
    /\ written (trace (snd (set_defaults
                              (scripted [line_of "OK"; line_of "ERR"])
                              (opened_on "COM3"))))
       = [line_of "d0"; line_of "m43000"].
Proof.
  destruct (set_defaults_order (scripted [line_of "OK"; line_of "ERR"])
              (opened_on "COM3") eq_refl)
    as (_ & _ & _ & H).
  apply H.
  - exists (line_of "OK"). split; reflexivity.
  - right. exists (line_of "ERR"). split; [reflexivity|discriminate].
Defined.

(** ** C4 and C5: [read] *)

(** [read] once the reply to [r] is there. *)
Lemma read_reply env data w :
  is_open (_serial w) = true ->
  exchange env (trace w) (line_of "r") = Returns data ->
  read env w
  = (let parts := map PyStr (split ";" (reply_of data)) in
     if negb (List.length parts =? 5)%nat then
       raise (ReplyError
                "Incorrect reply received (Number of items missmatched)."
                (Some parts))
     else
       match run_assignments read_assignments parts with
       | (parts', None) => ret parts'
       | (parts', Some ValueError) =>
           raise (ReplyError "Could not convert data." (Some parts'))
       | (_, Some e) => raise e
       end) (after_exchange (line_of "r") w).
Proof.
  intros Ho Hx. unfold read, bind.
  rewrite (runcmd_returns env "r" (line_of "r") data w Ho eq_refl Hx).
  reflexivity.
Qed.

(** C4.  On an open port, when the reply to [r] has exactly five fields
    between semicolons, of which the first two are integer literals and
    the last two are number literals, [read] returns the two integers, the
    third field as it is, and the two numbers (the millivolts the device
    reports) divided by 1000; the reply [43000;0;1.2;7500;12000] gives
    43000, 0, ["1.2"], 7.5 and 12.0.  When the number of fields is not
    five, [read] raises the [ReplyError] of the field count with the
    received fields, and returns no state. *)
Theorem read_decodes env data w :
  is_open (_serial w) = true ->
  exchange env (trace w) (line_of "r") = Returns data ->
  (forall a b c d e x y u v,
     split ";" (reply_of data) = [a; b; c; d; e] ->
     int_of_string a = Some x ->
     int_of_string b = Some y ->
     float_of_string d = Some u ->
     float_of_string e = Some v ->
     read env w
     = (Ok [PyInt x; PyInt y; PyStr c;
            PyFloat (PrimFloat.div u 1000);
            PyFloat (PrimFloat.div v 1000)],
        after_exchange (line_of "r") w))
  /\ (reply_of data = "43000;0;1.2;7500;12000" ->
      fst (read env w)
      = Ok [PyInt 43000; PyInt 0; PyStr "1.2"; PyFloat 7.5; PyFloat 12])
  /\ (List.length (split ";" (reply_of data)) <> 5%nat ->
      read env w
      = (Raise (ReplyError
                  "Incorrect reply received (Number of items missmatched)."
                  (Some (map PyStr (split ";" (reply_of data))))),
         after_exchange (line_of "r") w)).
Proof.
  intros Ho Hx. rewrite (read_reply env data w Ho Hx).
  split; [|split].
  - intros a b c d e x y u v Hf Ha Hb Hd He. cbv zeta. rewrite Hf.
    cbn [map List.length Nat.eqb negb].
    unfold read_assignments, run_assignments, assignment, to_int, to_str,
      to_volts.
    cbn [nth_error setitem]. rewrite Ha. cbn [nth_error setitem].
    rewrite Hb. cbn [nth_error setitem]. rewrite Hd.
    cbn [nth_error setitem]. rewrite He. reflexivity.
  - intros Hr. cbv zeta. rewrite Hr. reflexivity.
  - intros Hn. cbv zeta. rewrite length_map.
    destruct (Nat.eqb_spec (List.length (split ";" (reply_of data))) 5);
      [contradiction|reflexivity].
Qed.

(** The reply of the example, and a reply of four fields. *)
Lemma read_decodes_witness :
  fst (read (answering "43000;0;1.2;7500;12000") (opened_on "COM3"))
  = Ok [PyInt 43000; PyInt 0; PyStr "1.2"; PyFloat 7.5; PyFloat 12]
  /\ fst (read (answering "43000;0;1.2;7500") (opened_on "COM3"))
     = Raise (ReplyError
                "Incorrect reply received (Number of items missmatched)."
                (Some [PyStr "43000"; PyStr "0"; PyStr "1.2"; PyStr "7500"])).
Proof.
  split.
  - destruct (read_decodes (answering "43000;0;1.2;7500;12000")
                (line_of "43000;0;1.2;7500;12000") (opened_on "COM3")
                eq_refl eq_refl) as (_ & H & _).
    exact (H eq_refl).
  - destruct (read_decodes (answering "43000;0;1.2;7500")
                (line_of "43000;0;1.2;7500") (opened_on "COM3")
                eq_refl eq_refl) as (_ & _ & H).
    rewrite H; [reflexivity|]. cbn. discriminate.
Defined.

(** C5 fails on the code.  The reply [43000;0;1.2;7500;abc] has five
    fields and its last field is no number: the [ReplyError] of the
    conversion carries the list as the assignments before the failing one
    have left it, the integers 43000 and 0 and the number 7.5 where the
    strings ["43000"], ["0"] and ["7500"] were received. *)
Theorem read_error_carries_converted_fields :
  fst (read (answering "43000;0;1.2;7500;abc") (opened_on "COM3"))
  = Raise (ReplyError "Could not convert data."
             (Some [PyInt 43000; PyInt 0; PyStr "1.2"; PyFloat 7.5;
                    PyStr "abc"]))
  /\ [PyInt 43000; PyInt 0; PyStr "1.2"; PyFloat 7.5; PyStr "abc"]
     <> map PyStr (split ";" "43000;0;1.2;7500;abc").
Proof.
  split; [reflexivity|discriminate].
Qed.

(** ** C8: [connect] *)

Lemma disconnect_closed w : disconnect w = (Ok tt, closed w).
Proof.
  unfold disconnect, closed, bind, get_is_open, Serial_close, ret.
  destruct (is_open (_serial w)) eqn:E; [rewrite E|]; reflexivity.
Qed.

Lemma closed_is_closed w : is_open (_serial (closed w)) = false.
Proof.
  unfold closed. destruct (is_open (_serial w)) eqn:E; [reflexivity|exact E].
Qed.

Lemma connect_open_fails env p w :
  env (trace (closed w)) (EvOpen p) = Fails ->
  connect env p w
  = (Ok (false, "Could not open serial port"), opening p w).
Proof.
  intros Hf. unfold connect, bind. rewrite disconnect_closed.
  unfold try_except_else, Serial_set_port, Serial_open, bind.
  cbn [port set_port _serial is_open trace]. rewrite closed_is_closed, Hf.
  unfold get_is_open, ret. cbn [fst negb andb log _serial is_open set_port].
  rewrite closed_is_closed. reflexivity.
Qed.

Lemma connect_opened env p w d :
  env (trace (closed w)) (EvOpen p) = Returns d ->
  connect env p w
  = (Raise (NameError "test"), set_is_open true (opening p w)).
Proof.
  intros Hf. unfold connect, bind at 1 2. rewrite disconnect_closed.
  unfold try_except_else, Serial_set_port, Serial_open.
  unfold bind at 1.
  cbn [port set_port _serial is_open trace]. rewrite closed_is_closed, Hf.
  reflexivity.
Qed.

Lemma written_closed w : written (trace (closed w)) = written (trace w).
Proof.
  unfold closed. destruct (is_open (_serial w)); [|reflexivity].
  cbn [set_is_open log trace]. rewrite written_app. cbn. apply app_nil_r.
Qed.

Lemma written_opening p w : written (trace (opening p w)) = written (trace w).
Proof.
  unfold opening. cbn [log set_port trace]. rewrite written_app.
  cbn. rewrite app_nil_r. apply written_closed.
Qed.

(** C8.  Whenever [open] succeeds, [connect] ends with [NameError]: the
    [else] clause reads the global [test], which the module never binds.
    The port that was open before has been closed and the new one is left
    open; [i] is not sent, the identity is not checked, the result
    [(True, '')] is never reached and the port is not closed again. *)
Theorem connect_reads_unbound_test env p w d :
  env (trace (closed w)) (EvOpen p) = Returns d ->
  let w1 := set_is_open true (opening p w) in
  connect env p w = (Raise (NameError "test"), w1)
  /\ is_open (_serial w1) = true
  /\ port (_serial w1) = Some p
  /\ trace w1
     = (trace w ++ (if is_open (_serial w) then [EvClose] else [])
          ++ [EvOpen p])%list
  /\ written (trace w1) = written (trace w).
Proof.
  intros Hopen w1.
  split; [exact (connect_opened env p w d Hopen)|].
  split; [reflexivity|]. split; [reflexivity|].
  split.
  - unfold w1, opening, closed.
    destruct (is_open (_serial w)); cbn [set_is_open log set_port trace].
    + rewrite <- app_assoc. reflexivity.
    + reflexivity.
  - exact (written_opening p w).
Qed.

(** A meter open on one port is connected to another, on which a mph
    Meter answers: the old port is closed, the new one is opened, and
    [connect] raises [NameError] with nothing sent. *)
Lemma connect_reads_unbound_test_witness :
  connect (answering "mph Meter") "COM4" (opened_on "COM3")
  = (Raise (NameError "test"),
     set_is_open true (opening "COM4" (opened_on "COM3")))
  /\ trace (snd (connect (answering "mph Meter") "COM4" (opened_on "COM3")))
     = [EvClose; EvOpen "COM4"].
Proof.
  destruct (connect_reads_unbound_test (answering "mph Meter") "COM4"
              (opened_on "COM3") [] eq_refl) as (H & _).
  split; [exact H|reflexivity].
Defined.

(** ** C3: [flash_fw] *)

(** C3, as amended.  When [avrdude] does not exit within the 10 seconds
    of [wait], it is killed and [flash_fw] returns [False]; when it exits
    within them, it is not killed, and [flash_fw] returns [True] for the
    exit code 0 and [False] for every other exit code.  The result is a
    Boolean: it tells neither a timeout from a failure nor one exit code
    from another. *)
Theorem flash_fw_result abspath_join Popen port avrdude :
  Popen (avrdude_args abspath_join port) = Some avrdude ->
  let args := avrdude_args abspath_join port in
  (wait 10 avrdude = None ->
   flash_fw abspath_join Popen port
   = (Ok false, [EvPopen args; EvWait 10; EvKill]))
  /\ (wait 10 avrdude = Some 0 ->
      flash_fw abspath_join Popen port = (Ok true, [EvPopen args; EvWait 10]))
  /\ (forall code,
        wait 10 avrdude = Some code -> code <> 0 ->
        flash_fw abspath_join Popen port
        = (Ok false, [EvPopen args; EvWait 10])).
Proof.
  intros Hp args. unfold flash_fw. rewrite Hp. fold args.
  split; [|split].
  - intros ->. reflexivity.
  - intros ->. reflexivity.
  - intros code -> Hc. destruct (Z.eqb_spec code 0); [contradiction|].
    reflexivity.
Qed.

Lemma flash_fw_result_witness :
  fst (flash_fw slash_join (fun _ => Some flashing) "COM3") = Ok true
  /\ fst (flash_fw slash_join (fun _ => Some failing) "COM3") = Ok false
  /\ snd (flash_fw slash_join (fun _ => Some hanging) "COM3")
     = [EvPopen (avrdude_args slash_join "COM3"); EvWait 10; EvKill].
Proof.
  destruct (flash_fw_result slash_join (fun _ => Some flashing) "COM3"
              flashing eq_refl) as (_ & Hok & _).
  destruct (flash_fw_result slash_join (fun _ => Some failing) "COM3"
              failing eq_refl) as (_ & _ & Hfail).
  destruct (flash_fw_result slash_join (fun _ => Some hanging) "COM3"
              hanging eq_refl) as (Hkill & _).
  rewrite (Hok eq_refl), (Hfail 1 eq_refl ltac:(discriminate)),
    (Hkill eq_refl).
  split; [reflexivity|]. split; reflexivity.
Defined.

(** C3 as stated fails: a programmer that exceeds the deadline and one
    that exits in time with the code 1 give the same result, [False], and
    so do the exit codes 1 and 2. *)
Lemma flash_fw_timeout_is_failure :
  wait 10 hanging = None
  /\ wait 10 failing = Some 1
  /\ fst (flash_fw slash_join (fun _ => Some hanging) "COM3")
     = fst (flash_fw slash_join (fun _ => Some failing) "COM3")
  /\ fst (flash_fw slash_join (fun _ => Some failing) "COM3")
     = fst (flash_fw slash_join
            (fun _ => Some {| lifetime := Some 2500; exit_code := 2 |})
            "COM3").
Proof.
  split; [reflexivity|]. split; [reflexivity|]. split; reflexivity.
Qed.

(** * Further properties of [MphMeter] *)

(** ** Integers and the bounds *)

Lemma Z_le_num_Int a z : Z_le_num a (Int z) = (a <=? z).
Proof.
  unfold Z_le_num, Z.leb. cbn [compare_Z_number].
  destruct (a ?= z); reflexivity.
Qed.

Lemma num_le_Z_Int z b : num_le_Z (Int z) b = (z <=? b).
Proof.
  unfold num_le_Z, Z.leb. cbn [compare_Z_number].
  rewrite (Z.compare_antisym b z). destruct (b ?= z); reflexivity.
Qed.

Lemma command_Int p z : exists cmd, command p (Int z) = Ok cmd.
Proof.
  destruct p; cbn; eexists; reflexivity.
Qed.

(** On an open port an [int] is accepted by a setter exactly when it lies
    between the two bounds of the parameter, the bounds included: inside,
    the command is written and no [BoundaryError] is raised; outside,
    [BoundaryError] is raised and the state is left as it was. *)
Theorem integer_accepted_iff_in_range env p z w :
  is_open (_serial w) = true ->
  exists cmd,
    command p (Int z) = Ok cmd
    /\ (low p <= z <= high p ->
        sends w (snd (setValue env p (Int z) w)) (line_of cmd)
        /\ forall text v,
             fst (setValue env p (Int z) w) <> Raise (BoundaryError text v))
    /\ (~ (low p <= z <= high p) ->
        setValue env p (Int z) w
        = (Raise (BoundaryError (boundary_text p) (Int z)), w)).
Proof.
  intros Ho. destruct (command_Int p z) as [cmd Hc]. exists cmd.
  split; [exact Hc|].
  rewrite (setValue_command env p (Int z) cmd w Hc).
  split; intros Hr.
  - apply setvalue_in_bounds;
      [assumption| |exact (command_encodes p (Int z) cmd Hc)].
    rewrite Z_le_num_Int, num_le_Z_Int.
    apply andb_true_iff. split; apply Z.leb_le; lia.
  - rewrite setvalue_out_of_bounds; [reflexivity|assumption|].
    rewrite Z_le_num_Int, num_le_Z_Int.
    apply andb_false_iff.
    destruct (Z.leb_spec (low p) z); [|left; reflexivity].
    destruct (Z.leb_spec z (high p)); [|right; reflexivity].
    exfalso; apply Hr; lia.
Qed.

(** 500 ms are inside the bounds of debounce, -1 is not. *)
Lemma integer_accepted_iff_in_range_witness :
  sends (opened_on "COM3")
    (snd (setValue (answering "OK") Debounce (Int 500) (opened_on "COM3")))
    (line_of "d500")
  /\ fst (setValue (answering "OK") Debounce (Int (-1)) (opened_on "COM3"))
     = Raise (BoundaryError (boundary_text Debounce) (Int (-1))).
Proof.
  split.
  - destruct (integer_accepted_iff_in_range (answering "OK") Debounce 500
                (opened_on "COM3") eq_refl) as (cmd & Hc & Hin & _).
    injection Hc as <-. apply Hin. unfold low, high. lia.
  - destruct (integer_accepted_iff_in_range (answering "OK") Debounce (-1)
                (opened_on "COM3") eq_refl) as (cmd & _ & _ & Hout).
    rewrite Hout; [reflexivity|]. unfold low, high. lia.
Defined.

(** ** The reply to a setter *)

(** On an open port, for a value in bounds whose command the device
    answers: the reply [OK] is a success, [ERR] raises the [ReplyError]
    that names the parameter, an empty reply raises the one of no reply,
    any other reply raises the one that quotes the reply; in the four
    cases the port stays open. *)
Theorem setter_reply_classes env p value cmd line w :
  is_open (_serial w) = true ->
  command p value = Ok cmd ->
  Z_le_num (low p) value && num_le_Z value (high p) = true ->
  exchange env (trace w) (line_of cmd) = Returns line ->
  let r := fst (setValue env p value w) in
  (reply_of line = "OK" -> r = Ok tt)
  /\ (reply_of line = "ERR" ->
      r = Raise (ReplyError ("Error setting " ++ name_of p ++ " value") None))
  /\ (reply_of line = "" -> r = Raise (ReplyError "No reply received" None))
  /\ (reply_of line <> "OK" -> reply_of line <> "ERR" ->
      reply_of line <> "" ->
      r = Raise (ReplyError
                   ("Incorrect reply received: " ++ repr (reply_of line))
                   None))
  /\ is_open (_serial (snd (setValue env p value w))) = true.
Proof.
  intros Ho Hc Hb Hx r. unfold r.
  rewrite (setValue_command env p value cmd w Hc).
  rewrite (setvalue_returns env cmd (line_of cmd) line value _ _ _ _ w
             Ho Hb (command_encodes p value cmd Hc) Hx).
  cbn [fst snd]. unfold reply_result.
  split; [intros ->; reflexivity|].
  split; [intros ->; reflexivity|].
  split; [intros ->; reflexivity|].
  split; [|exact Ho].
  intros H1 H2 H3.
  destruct (String.eqb_spec (reply_of line) "ERR"); [contradiction|].
  destruct (String.eqb_spec (reply_of line) ""); [contradiction|].
  destruct (String.eqb_spec (reply_of line) "OK"); [contradiction|].
  reflexivity.
Qed.

(** A device that answers [ERR], and one that answers [busy]. *)
Lemma setter_reply_classes_witness :
  fst (setValue (answering "ERR") CriticalVoltage (Float 7.5)
         (opened_on "COM3"))
  = Raise (ReplyError "Error setting V(crit) value" None)
  /\ fst (setValue (answering "busy") CriticalVoltage (Float 7.5)
            (opened_on "COM3"))
     = Raise (ReplyError "Incorrect reply received: 'busy'" None).
Proof.
  split.
  - destruct (setter_reply_classes (answering "ERR") CriticalVoltage
                (Float 7.5) "t7500" (line_of "ERR") (opened_on "COM3")
                eq_refl eq_refl eq_refl eq_refl) as (_ & H & _).
    exact (H eq_refl).
  - destruct (setter_reply_classes (answering "busy") CriticalVoltage
                (Float 7.5) "t7500" (line_of "busy") (opened_on "COM3")
                eq_refl eq_refl eq_refl eq_refl) as (_ & _ & _ & H & _).
    apply H; discriminate.
Defined.

(** ** [_runcmd]: one line for each command *)

Lemma encode_not_ascii cmd :
  ascii_only cmd = false -> encode_ascii (cmd ++ LF) = Raise UnicodeEncodeError.
Proof.
  intros H. unfold encode_ascii.
  change (forallb is_ascii_byte (list_byte_of_string (cmd ++ LF)))
    with (ascii_only (cmd ++ LF)).
  rewrite ascii_only_app, H. reflexivity.
Qed.

(** A command with a character outside ASCII raises [UnicodeEncodeError]
    before any call on the port: nothing is written and the port stays
    open, the exception is not taken for a lost connection. *)
Theorem runcmd_not_ascii env cmd w :
  is_open (_serial w) = true ->
  ascii_only cmd = false ->
  _runcmd env cmd w = (Raise UnicodeEncodeError, w).
Proof.
  intros Ho Ha. unfold _runcmd, bind, get_is_open, try_except, lift.
  rewrite Ho, (encode_not_ascii cmd Ha). reflexivity.
Qed.

Lemma runcmd_not_ascii_witness :
  _runcmd (answering "OK") "µ" (opened_on "COM3")
  = (Raise UnicodeEncodeError, opened_on "COM3").
Proof.
  apply (runcmd_not_ascii (answering "OK") "µ" (opened_on "COM3"));
    reflexivity.
Defined.

(** On an open port, whatever the device does, an ASCII command is written
    once, as one line; the result is a reply with the port still open,
    or [LostConnectionError] with the port closed; the port name is kept. *)
Theorem runcmd_one_line env cmd w :
  is_open (_serial w) = true ->
  ascii_only cmd = true ->
  let r := fst (_runcmd env cmd w) in
  let w' := snd (_runcmd env cmd w) in
  written (trace w') = (written (trace w) ++ [line_of cmd])%list
  /\ port (_serial w') = port (_serial w)
  /\ ((exists reply, r = Ok reply) /\ is_open (_serial w') = true
      \/ r = Raise LostConnectionError /\ is_open (_serial w') = false).
Proof.
  intros Ho Ha.
  assert (encode_ascii (cmd ++ LF) = Ok (line_of cmd)) as He.
  { apply encode_ascii_only. rewrite ascii_only_app, Ha. reflexivity. }
  destruct (exchange env (trace w) (line_of cmd)) as [|line] eqn:Hx.
  - destruct (runcmd_fails env cmd (line_of cmd) w Ho He Hx)
      as (calls & Hw & ->).
    cbn [fst snd trace set_is_open _serial port is_open].
    split; [|split; [reflexivity|right; split; reflexivity]].
    rewrite written_app. cbn [written]. rewrite written_app, Hw.
    reflexivity.
  - rewrite (runcmd_returns env cmd (line_of cmd) line w Ho He Hx).
    cbn [fst snd]. split; [apply written_after_exchange|].
    split; [reflexivity|]. left. split; [eexists; reflexivity|exact Ho].
Qed.

Lemma runcmd_one_line_witness :
  written (trace (snd (_runcmd unplugged "r" (opened_on "COM3"))))
  = [line_of "r"]
  /\ written (trace (snd (_runcmd (answering "OK") "r" (opened_on "COM3"))))
     = [line_of "r"].
Proof.
  split.
  - apply (runcmd_one_line unplugged "r" (opened_on "COM3") eq_refl eq_refl).
  - apply (runcmd_one_line (answering "OK") "r" (opened_on "COM3")
             eq_refl eq_refl).
Defined.

(** ** [connect] and [disconnect]: the result and the port *)

(** Whatever the port and the device do, [connect] never returns [True]
    and never writes to the device.  Either [open] has failed: the result
    is [(False, 'Could not open serial port')] and the port is closed; or
    it has succeeded: [NameError] is raised for the unbound [test], and
    the port is left open.  In both cases the new port name is set. *)
Theorem connect_outcome env p w :
  match connect env p w with
  | (Ok (connected, reason), w') =>
      connected = false
      /\ reason = "Could not open serial port"
      /\ is_open (_serial w') = false
  | (Raise e, w') => e = NameError "test" /\ is_open (_serial w') = true
  end
  /\ port (_serial (snd (connect env p w))) = Some p
  /\ written (trace (snd (connect env p w))) = written (trace w).
Proof.
  destruct (env (trace (closed w)) (EvOpen p)) as [|d] eqn:Hopen.
  - rewrite (connect_open_fails env p w Hopen). cbn [snd].
    split; [|split; [reflexivity|apply written_opening]].
    split; [reflexivity|]. split; [reflexivity|].
    unfold opening. cbn. apply closed_is_closed.
  - rewrite (connect_opened env p w d Hopen). cbn [snd].
    split; [split; reflexivity|]. split; [reflexivity|].
    cbn [set_is_open trace]. apply written_opening.
Qed.

(** [disconnect] never raises and leaves the port closed; a second
    [disconnect] changes nothing, and no command is written by either. *)
Theorem disconnect_idempotent w :
  let w' := snd (disconnect w) in
  fst (disconnect w) = Ok tt
  /\ is_open (_serial w') = false
  /\ disconnect w' = (Ok tt, w')
  /\ port (_serial w') = port (_serial w)
  /\ written (trace w') = written (trace w).
Proof.
  rewrite disconnect_closed. cbn [fst snd].
  split; [reflexivity|]. split; [apply closed_is_closed|].
  split.
  - rewrite disconnect_closed. f_equal. unfold closed at 1.
    rewrite closed_is_closed. reflexivity.
  - unfold closed. destruct (is_open (_serial w)); cbn [set_is_open log
      _serial port trace]; split; try reflexivity.
    rewrite written_app. cbn. apply app_nil_r.
Qed.

(** ** The reply of [_runcmd] is stripped ASCII text *)

Lemma lstrip_head s :
  lstrip s = "" \/ exists c r, lstrip s = String c r /\ is_space c = false.
Proof.
  induction s as [|c r IH]; [left; reflexivity|].
  cbn [lstrip]. destruct (is_space c) eqn:E; [exact IH|].
  right. exists c, r. split; [reflexivity|exact E].
Qed.

Lemma rstrip_idempotent s : rstrip (rstrip s) = rstrip s.
Proof.
  induction s as [|c r IH]; [reflexivity|].
  cbn [rstrip]. destruct (rstrip r) as [|d r'] eqn:E.
  - destruct (is_space c) eqn:Ec; [reflexivity|].
    cbn [rstrip]. rewrite Ec. reflexivity.
  - change (match rstrip (String d r') with
            | EmptyString =>
                if is_space c then EmptyString else String c EmptyString
            | String a b => String c (String a b)
            end = String c (String d r')).
    rewrite IH. reflexivity.
Qed.

Lemma rstrip_head c r :
  is_space c = false -> exists r', rstrip (String c r) = String c r'.
Proof.
  intros Ec. cbn [rstrip]. destruct (rstrip r) as [|d r'].
  - rewrite Ec. eexists; reflexivity.
  - eexists; reflexivity.
Qed.

Lemma strip_idempotent s : strip (strip s) = strip s.
Proof.
  unfold strip. destruct (lstrip_head s) as [->|(c & r & -> & Ec)].
  - reflexivity.
  - destruct (rstrip_head c r Ec) as [r' Hr]. rewrite Hr.
    cbn [lstrip]. rewrite Ec, <- Hr. apply rstrip_idempotent.
Qed.

Lemma ascii_only_lstrip s : ascii_only s = true -> ascii_only (lstrip s) = true.
Proof.
  induction s as [|c r IH]; [reflexivity|].
  intros H. cbn [lstrip]. destruct (is_space c); [|exact H].
  rewrite ascii_only_cons in H. apply andb_true_iff in H. apply IH, H.
Qed.

Lemma ascii_only_rstrip s : ascii_only s = true -> ascii_only (rstrip s) = true.
Proof.
  induction s as [|c r IH]; [reflexivity|].
  intros H. rewrite ascii_only_cons in H. apply andb_true_iff in H.
  destruct H as [Hc Hr]. cbn [rstrip]. specialize (IH Hr).
  destruct (rstrip r) as [|d r'].
  - destruct (is_space c); [reflexivity|].
    rewrite ascii_only_cons, Hc. reflexivity.
  - rewrite ascii_only_cons, Hc. exact IH.
Qed.

Lemma forallb_filter {A} (f : A -> bool) l : forallb f (filter f l) = true.
Proof.
  induction l as [|a l IH]; [reflexivity|].
  cbn [filter]. destruct (f a) eqn:E; [|exact IH].
  cbn [forallb]. rewrite E. exact IH.
Qed.

Lemma reply_of_normal line :
  strip (reply_of line) = reply_of line /\ ascii_only (reply_of line) = true.
Proof.
  unfold reply_of. split; [apply strip_idempotent|].
  unfold strip. apply ascii_only_rstrip, ascii_only_lstrip.
  unfold ascii_only, decode_ascii_ignore.
  rewrite list_byte_of_string_of_list_byte. apply forallb_filter.
Qed.

(** Every reply [_runcmd] returns is in normal form: stripping it again
    changes nothing (no white space at either end, so a line end of
    carriage return and line feed never shows) and all its characters are
    ASCII. *)
Theorem runcmd_reply_normal env cmd w reply :
  fst (_runcmd env cmd w) = Ok reply ->
  strip reply = reply /\ ascii_only reply = true.
Proof.
  destruct (is_open (_serial w)) eqn:Ho;
    [|rewrite (runcmd_closed env cmd w Ho); discriminate].
  destruct (encode_ascii (cmd ++ LF)) as [data|e] eqn:He.
  - destruct (exchange env (trace w) data) as [|line] eqn:Hx.
    + destruct (runcmd_fails env cmd data w Ho He Hx)
        as (calls & _ & ->). discriminate.
    + rewrite (runcmd_returns env cmd data line w Ho He Hx).
      cbn [fst]. intros [= <-]. apply reply_of_normal.
  - assert (e = UnicodeEncodeError) as ->
        by (unfold encode_ascii in He; destruct (forallb _ _); congruence).
    unfold _runcmd, bind, get_is_open, try_except, lift.
    rewrite Ho, He. discriminate.
Qed.

(** A reply that arrives with spaces, a carriage return and a byte outside
    ASCII around it. *)
Lemma runcmd_reply_normal_witness :
  fst (_runcmd (scripted [list_byte_of_string " OK"
                            ++ [Byte.xff; Byte.x0d; Byte.x0a]])%list
         "i" (opened_on "COM3")) = Ok "OK"
  /\ strip "OK" = "OK" /\ ascii_only "OK" = true.
Proof.
  split; [reflexivity|].
  apply (runcmd_reply_normal
           (scripted [list_byte_of_string " OK"
                        ++ [Byte.xff; Byte.x0d; Byte.x0a]])%list
           "i" (opened_on "COM3") "OK" eq_refl).
Defined.

(** ** The decimal text of an integer is read back as the integer *)

Lemma more_digits_acc d (acc : positive) n :
  exists k,
    more_digits (NilEmpty.string_of_uint d) (Zpos acc) n
    = (Zpos (Pos.of_uint_acc d acc), k, "").
Proof.
  revert acc n. induction d; intros acc n; cbn [NilEmpty.string_of_uint];
    [eexists; reflexivity| | | | | | | | | |];
    cbn [more_digits];
    match goal with
    | |- context [digit_val ?c] =>
        let v := eval vm_compute in (digit_val c) in
        change (digit_val c) with v
    end; cbv beta iota;
    match goal with
    | |- context [more_digits _ ?a ?m] =>
        destruct (IHd (Z.to_pos a) m) as [k Hk]; exists k;
        replace a with (Zpos (Z.to_pos a)) by lia; rewrite Hk
    end; cbn [Pos.of_uint_acc]; repeat f_equal; lia.
Qed.

Lemma more_digits_zero d n :
  exists k,
    more_digits (NilEmpty.string_of_uint d) 0 n
    = (Z.of_N (Pos.of_uint d), k, "").
Proof.
  revert n. induction d; intros n; cbn [NilEmpty.string_of_uint];
    [eexists; reflexivity| | | | | | | | | |];
    cbn [more_digits];
    match goal with
    | |- context [digit_val ?c] =>
        let v := eval vm_compute in (digit_val c) in
        change (digit_val c) with v
    end; cbv beta iota.
  - apply IHd.
  - change (10 * 0 + 1) with (Zpos 1). apply more_digits_acc.
  - change (10 * 0 + 2) with (Zpos 2). apply more_digits_acc.
  - change (10 * 0 + 3) with (Zpos 3). apply more_digits_acc.
  - change (10 * 0 + 4) with (Zpos 4). apply more_digits_acc.
  - change (10 * 0 + 5) with (Zpos 5). apply more_digits_acc.
  - change (10 * 0 + 6) with (Zpos 6). apply more_digits_acc.
  - change (10 * 0 + 7) with (Zpos 7). apply more_digits_acc.
  - change (10 * 0 + 8) with (Zpos 8). apply more_digits_acc.
  - change (10 * 0 + 9) with (Zpos 9). apply more_digits_acc.
Qed.

Lemma digitpart_uint d :
  d <> Decimal.Nil ->
  exists k,
    digitpart (NilEmpty.string_of_uint d) 0
    = Some (Z.of_N (Pos.of_uint d), k, "").
Proof.
  intros Hd. destruct (more_digits_zero d 0) as [k Hk].
  exists k. rewrite <- Hk. destruct d; [contradiction| | | | | | | | | |];
    reflexivity.
Qed.

Lemma lstrip_c_uint d :
  lstrip_c (NilEmpty.string_of_uint d) = NilEmpty.string_of_uint d.
Proof. destruct d; reflexivity. Qed.

Lemma rstrip_c_uint d :
  rstrip_c (NilEmpty.string_of_uint d) = NilEmpty.string_of_uint d.
Proof.
  induction d; [reflexivity| | | | | | | | | |];
    cbn [NilEmpty.string_of_uint rstrip_c]; rewrite IHd;
    destruct (NilEmpty.string_of_uint d); reflexivity.
Qed.

Lemma sign_of_uint d :
  sign_of (NilEmpty.string_of_uint d) = (false, NilEmpty.string_of_uint d).
Proof. destruct d; reflexivity. Qed.

Lemma to_uint_not_Nil p : Pos.to_uint p <> Decimal.Nil.
Proof.
  intros H. pose proof (DecimalPos.Unsigned.of_to p) as E.
  rewrite H in E. discriminate.
Qed.

(** An ASCII string reaches the parser of [int] and [float] as it is. *)
Lemma transform_ascii s :
  ascii_only s = true -> TransformDecimalAndSpaceToASCII s = s.
Proof.
  intros H. unfold TransformDecimalAndSpaceToASCII.
  unfold ascii_only in H. rewrite H. reflexivity.
Qed.

Lemma int_of_string_dec z : int_of_string (dec z) = Some z.
Proof.
  unfold int_of_string. rewrite (transform_ascii (dec z) (ascii_only_dec z)).
  destruct z as [|p|p]; [reflexivity| |].
  - unfold dec. cbn [Z.to_int NilZero.string_of_int].
    pose proof (to_uint_not_Nil p) as Hn.
    assert (NilZero.string_of_uint (Pos.to_uint p)
            = NilEmpty.string_of_uint (Pos.to_uint p)) as ->
        by (unfold NilZero.string_of_uint;
            destruct (Pos.to_uint p); [contradiction| | | | | | | | | |];
            reflexivity).
    unfold strip_c. rewrite lstrip_c_uint, rstrip_c_uint, sign_of_uint.
    destruct (digitpart_uint (Pos.to_uint p) Hn) as [k ->].
    rewrite DecimalPos.Unsigned.of_to. reflexivity.
  - unfold dec. cbn [Z.to_int NilZero.string_of_int].
    pose proof (to_uint_not_Nil p) as Hn.
    assert (NilZero.string_of_uint (Pos.to_uint p)
            = NilEmpty.string_of_uint (Pos.to_uint p)) as ->
        by (unfold NilZero.string_of_uint;
            destruct (Pos.to_uint p); [contradiction| | | | | | | | | |];
            reflexivity).
    assert (strip_c (String "-" (NilEmpty.string_of_uint (Pos.to_uint p)))
            = String "-" (NilEmpty.string_of_uint (Pos.to_uint p))) as ->.
    { unfold strip_c.
      change (lstrip_c (String "-" ?s)) with (String "-"%char s).
      cbn [rstrip_c]. rewrite rstrip_c_uint.
      destruct (NilEmpty.string_of_uint (Pos.to_uint p)); reflexivity. }
    change (sign_of (String "-" ?s)) with (true, s).
    destruct (digitpart_uint (Pos.to_uint p) Hn) as [k ->].
    rewrite DecimalPos.Unsigned.of_to. reflexivity.
Qed.

(** The digits a setter puts in its command and the [int] conversion of
    [read] are inverse to each other: for every [int], the text that
    ['{:d}'.format] makes of it converts back to the same [int]. *)
Theorem integer_text_round_trip z :
  exists digits,
    format_d (Int z) = Ok digits /\ to_int digits = Ok (PyInt z).
Proof.
  exists (dec z). split; [reflexivity|].
  unfold to_int. rewrite int_of_string_dec. reflexivity.
Qed.

(** ** What [read] and [set_defaults] can raise *)

Lemma run_assignments_five a b c d e :
  (exists x y u v,
     run_assignments read_assignments
       [PyStr a; PyStr b; PyStr c; PyStr d; PyStr e]
     = ([PyInt x; PyInt y; PyStr c; PyFloat u; PyFloat v], None))
  \/ exists parts,
       run_assignments read_assignments
         [PyStr a; PyStr b; PyStr c; PyStr d; PyStr e]
       = (parts, Some ValueError).
Proof.
  unfold read_assignments, run_assignments, assignment, to_int, to_str,
    to_volts.
  cbn [nth_error setitem].
  destruct (int_of_string a); [|right; eexists; reflexivity].
  cbn [nth_error setitem].
  destruct (int_of_string b); [|right; eexists; reflexivity].
  cbn [nth_error setitem].
  destruct (float_of_string d); [|right; eexists; reflexivity].
  cbn [nth_error setitem].
  destruct (float_of_string e); [|right; eexists; reflexivity].
  left. do 4 eexists. reflexivity.
Qed.

(** The three ways [read] ends on an open port, with the state it leaves. *)
Lemma read_cases env w :
  is_open (_serial w) = true ->
  (exists x y c u v,
     read env w
     = (Ok [PyInt x; PyInt y; PyStr c; PyFloat u; PyFloat v],
        after_exchange (line_of "r") w))
  \/ (exists text value,
        read env w
        = (Raise (ReplyError text (Some value)),
           after_exchange (line_of "r") w))
  \/ (fst (read env w) = Raise LostConnectionError
      /\ is_open (_serial (snd (read env w))) = false
      /\ written (trace (snd (read env w)))
         = (written (trace w) ++ [line_of "r"])%list).
Proof.
  intros Ho.
  destruct (exchange env (trace w) (line_of "r")) as [|line] eqn:Hx.
  - right; right. unfold read, bind.
    destruct (runcmd_fails env "r" (line_of "r") w Ho eq_refl Hx)
      as (calls & Hw & ->).
    cbn [fst snd trace set_is_open _serial is_open].
    split; [reflexivity|]. split; [reflexivity|].
    rewrite written_app. cbn [written]. rewrite written_app, Hw.
    reflexivity.
  - rewrite (read_reply env line w Ho Hx). cbv zeta.
    destruct (split ";" (reply_of line)) as [|a [|b [|c [|d [|e [|f l]]]]]];
      cbn [map List.length Nat.eqb negb];
      try (right; left; do 2 eexists; reflexivity).
    destruct (run_assignments_five a b c d e)
      as [(x & y & u & v & ->)|(parts & ->)].
    + left. exists x, y, c, u, v. reflexivity.
    + right; left. do 2 eexists; reflexivity.
Qed.

(** On an open port [read] writes the one command [r] and ends in one of
    three ways: it returns five values, two integers, a string and two
    numbers, with the port open; it raises a [ReplyError] that carries a
    list, with the port still open; or it raises [LostConnectionError]
    with the port closed. *)
Theorem read_outcome env w :
  is_open (_serial w) = true ->
  let r := fst (read env w) in
  let w' := snd (read env w) in
  written (trace w') = (written (trace w) ++ [line_of "r"])%list
  /\ ((exists x y c u v,
         r = Ok [PyInt x; PyInt y; PyStr c; PyFloat u; PyFloat v])
      /\ is_open (_serial w') = true
      \/ (exists text value, r = Raise (ReplyError text (Some value)))
         /\ is_open (_serial w') = true
      \/ r = Raise LostConnectionError /\ is_open (_serial w') = false).
Proof.
  intros Ho.
  destruct (read_cases env w Ho)
    as [(x & y & c & u & v & ->)|[(text & value & ->)|(Hr & Hc & Hw)]];
    cbn [fst snd].
  - split; [apply written_after_exchange|].
    left. split; [|exact Ho]. exists x, y, c, u, v. reflexivity.
  - split; [apply written_after_exchange|].
    right; left. split; [|exact Ho]. exists text, value. reflexivity.
  - split; [exact Hw|]. right; right. split; assumption.
Qed.

(** A reply of garbage leaves the port open. *)
Lemma read_outcome_witness :
  written (trace (snd (read (answering "?") (opened_on "COM3"))))
  = [line_of "r"]
  /\ is_open (_serial (snd (read (answering "?") (opened_on "COM3")))) = true.
Proof.
  destruct (read_outcome (answering "?") (opened_on "COM3") eq_refl)
    as [Hw _].
  split; [exact Hw|reflexivity].
Defined.

Lemma reply_result_classes name reply :
  reply_result name reply = Ok tt
  \/ exists text, reply_result name reply = Raise (ReplyError text None).
Proof.
  unfold reply_result.
  destruct (reply =? "ERR")%string; [right; eexists; reflexivity|].
  destruct (reply =? "")%string; [right; eexists; reflexivity|].
  destruct (reply =? "OK")%string;
    [left; reflexivity|right; eexists; reflexivity].
Qed.

(** A setter on an open port, with its command built and its value in
    bounds: success or a [ReplyError] after the exchange, or a lost
    connection with the port closed. *)
Lemma setValue_outcome env p value cmd w :
  is_open (_serial w) = true ->
  command p value = Ok cmd ->
  Z_le_num (low p) value && num_le_Z value (high p) = true ->
  setValue env p value w = (Ok tt, after_exchange (line_of cmd) w)
  \/ (exists text,
        setValue env p value w
        = (Raise (ReplyError text None), after_exchange (line_of cmd) w))
  \/ fst (setValue env p value w) = Raise LostConnectionError
     /\ is_open (_serial (snd (setValue env p value w))) = false.
Proof.
  intros Ho Hc Hb. rewrite (setValue_command env p value cmd w Hc).
  destruct (exchange env (trace w) (line_of cmd)) as [|line] eqn:Hx.
  - destruct (setvalue_fails env cmd (line_of cmd) value (name_of p)
                (low p) (high p) (unit_of p) w Ho Hb
                (command_encodes p value cmd Hc) Hx) as (calls & _ & ->).
    right; right. split; reflexivity.
  - rewrite (setvalue_returns env cmd (line_of cmd) line value _ _ _ _ w
               Ho Hb (command_encodes p value cmd Hc) Hx).
    destruct (reply_result_classes (name_of p) (reply_of line))
      as [->|[text ->]].
    + left; reflexivity.
    + right; left. exists text. reflexivity.
Qed.

(** The three ways [set_defaults] ends on an open port, with the state
    it leaves. *)
Lemma set_defaults_cases env w :
  is_open (_serial w) = true ->
  (exists w',
     set_defaults env w = (Ok tt, w') /\ is_open (_serial w') = true)
  \/ (exists text w',
        set_defaults env w = (Raise (ReplyError text None), w')
        /\ is_open (_serial w') = true)
  \/ (exists w',
        set_defaults env w = (Raise LostConnectionError, w')
        /\ is_open (_serial w') = false).
Proof.
  intros Ho. rewrite set_defaults_sequence. unfold bind.
  change (set_debounce env (Int 0) w)
    with (setValue env Debounce (Int 0) w).
  destruct (setValue_outcome env Debounce (Int 0) "d0" w Ho eq_refl eq_refl)
    as [->|[[text ->]|[Hr Hc]]].
  - set (w1 := after_exchange (line_of "d0") w).
    change (set_muempp env (Int 43000) w1)
      with (setValue env MicronsPerPulse (Int 43000) w1).
    destruct (setValue_outcome env MicronsPerPulse (Int 43000) "m43000" w1
                Ho eq_refl eq_refl) as [->|[[text ->]|[Hr Hc]]].
    + set (w2 := after_exchange (line_of "m43000") w1).
      change (set_vcrit env (Float 7.5) w2)
        with (setValue env CriticalVoltage (Float 7.5) w2).
      destruct (setValue_outcome env CriticalVoltage (Float 7.5) "t7500" w2
                  Ho eq_refl eq_refl) as [->|[[text ->]|[Hr Hc]]].
      * left. eexists. split; [reflexivity|exact Ho].
      * right; left. do 2 eexists. split; [reflexivity|exact Ho].
      * right; right.
        destruct (setValue env CriticalVoltage (Float 7.5) w2) as [r2 w2'].
        cbn [fst snd] in *. subst r2. eexists. split; [reflexivity|exact Hc].
    + right; left. do 2 eexists. split; [reflexivity|exact Ho].
    + right; right.
      destruct (setValue env MicronsPerPulse (Int 43000) w1) as [r1 w1'].
      cbn [fst snd] in *. subst r1. eexists. split; [reflexivity|exact Hc].
  - right; left. do 2 eexists. split; [reflexivity|exact Ho].
  - right; right.
    destruct (setValue env Debounce (Int 0) w) as [r0 w0].
    cbn [fst snd] in *. subst r0. eexists. split; [reflexivity|exact Hc].
Qed.

(** On an open port [set_defaults] ends in one of three ways: success
    with the port open, a [ReplyError] with the port open, or
    [LostConnectionError] with the port closed.  The defaults are within
    their bounds and have the type their setter formats: it never raises
    [BoundaryError], [ValueError] or [KeyError]. *)
Theorem set_defaults_outcome env w :
  is_open (_serial w) = true ->
  let r := fst (set_defaults env w) in
  let w' := snd (set_defaults env w) in
  r = Ok tt /\ is_open (_serial w') = true
  \/ (exists text, r = Raise (ReplyError text None))
     /\ is_open (_serial w') = true
  \/ r = Raise LostConnectionError /\ is_open (_serial w') = false.
Proof.
  intros Ho. cbv zeta.
  destruct (set_defaults_cases env w Ho)
    as [(w' & -> & H)|[(text & w' & -> & H)|(w' & -> & H)]]; cbn [fst snd].
  - left. split; [reflexivity|exact H].
  - right; left. split; [eexists; reflexivity|exact H].
  - right; right. split; [reflexivity|exact H].
Qed.

(** A device that accepts the three defaults. *)
Lemma set_defaults_outcome_witness :
  fst (set_defaults (answering "OK") (opened_on "COM3")) = Ok tt
  \/ (exists text,
        fst (set_defaults (answering "OK") (opened_on "COM3"))
        = Raise (ReplyError text None))
  \/ fst (set_defaults (answering "OK") (opened_on "COM3"))
     = Raise LostConnectionError.
Proof.
  destruct (set_defaults_outcome (answering "OK") (opened_on "COM3") eq_refl)
    as [[H _]|[[H _]|[H _]]].
  - left; exact H.
  - right; left; exact H.
  - right; right; exact H.
Defined.

(** * Properties of the view *)

Lemma disconnect_on_closed w :
  is_open (_serial w) = false -> disconnect w = (Ok tt, w).
Proof.
  intros Hc. rewrite disconnect_closed. unfold closed. rewrite Hc.
  reflexivity.
Qed.


(** The five assignments of [_read_values] on the declared variables. *)
Lemma variables_set app v0 v1 v2 v3 v4 :
  View.declared (View.variables app) ->
  View.vbind (View.variable_set "muempp_µm" v0) (fun _ =>
  View.vbind (View.variable_set "debounce_ms" v1) (fun _ =>
  View.vbind (View.variable_set "version" v2) (fun _ =>
  View.vbind (View.variable_set "vwarn_v" v3) (fun _ =>
  View.variable_set "vbat_v" v4)))) app
  = (Ok tt,
     View.set_variables
       [("version", v2); ("vbat_v", v4); ("muempp_µm", v0);
        ("debounce_ms", v1); ("vwarn_v", v3)] app).
Proof.
  unfold View.declared. destruct app as [m pv vars nc ds pr].
  cbn [View.variables].
  destruct vars as [|[k1 a1] [|[k2 a2] [|[k3 a3] [|[k4 a4] [|[k5 a5] [|]]]]]];
    try discriminate.
  cbn [map fst]. intros [= -> -> -> -> ->]. reflexivity.
Qed.

Ltac open_read_values Ho :=
  unfold View._read_values, View.is_connected; unfold View.vbind at 1;
  rewrite Ho; cbn [negb]; unfold View.try_; unfold View.vbind at 1;
  unfold View.meter.

(** What [_read_values] does on an open port. *)
Lemma read_values_cases env app :
  is_open (_serial (View.mphmeter app)) = true ->
  View.declared (View.variables app) ->
  let w := View.mphmeter app in
  let w' := after_exchange (line_of "r") w in
  (exists x y c u v,
     read env w = (Ok [PyInt x; PyInt y; PyStr c; PyFloat u; PyFloat v], w')
     /\ View._read_values env app
        = (Ok tt,
           View.set_variables
             [("version", PyStr c); ("vbat_v", PyFloat v);
              ("muempp_µm", PyInt x); ("debounce_ms", PyInt y);
              ("vwarn_v", PyFloat u)] (View.set_mphmeter w' app)))
  \/ (exists text value,
        read env w = (Raise (ReplyError text (Some value)), w')
        /\ View._read_values env app
           = (Ok tt,
              View.add_dialog (View.showerror "ERROR" text)
                (View.set_mphmeter w' app)))
  \/ (fst (read env w) = Raise LostConnectionError
      /\ is_open (_serial (snd (read env w))) = false
      /\ View._read_values env app
         = (Ok tt,
            View.set_need_connection "disabled"
              (View.add_dialog View.connection_lost
                 (View.set_mphmeter (snd (read env w)) app)))).
Proof.
  intros Ho Hd. cbv zeta.
  destruct (read_cases env (View.mphmeter app) Ho)
    as [(x & y & c & u & v & Hr)|[(text & value & Hr)|(Hr & Hc & _)]].
  - left. exists x, y, c, u, v. split; [exact Hr|].
    open_read_values Ho. rewrite Hr.
    cbn [nth]. rewrite variables_set by exact Hd. reflexivity.
  - right; left. exists text, value. split; [exact Hr|].
    open_read_values Ho. rewrite Hr. reflexivity.
  - right; right. split; [exact Hr|]. split; [exact Hc|].
    open_read_values Ho.
    destruct (read env (View.mphmeter app)) as [r w1].
    cbn [fst snd] in *. subst r.
    unfold View._disconnect, View.vbind, View.show, View.meter,
      View.configure.
    cbn [View.mphmeter View.add_dialog View.set_mphmeter].
    rewrite (disconnect_on_closed w1 Hc). reflexivity.
Qed.

(** ** The commands on a meter that is not connected *)

(** While the port is closed, the commands [_read_values] and [_ondefault]
    and the command [_setvalue] of the three Set buttons, whatever the
    entry holds, only show the warning to connect first: no call is made
    on the port, no variable and no widget changes. *)
Theorem commands_need_connection env app var_get setfunc :
  is_open (_serial (View.mphmeter app)) = false ->
  View._read_values env app
  = (Ok tt, View.add_dialog View.connect_first app)
  /\ View._ondefault env app
     = (Ok tt, View.add_dialog View.connect_first app)
  /\ View._setvalue var_get setfunc app
     = (Ok tt, View.add_dialog View.connect_first app)
  /\ View.mphmeter (View.add_dialog View.connect_first app)
     = View.mphmeter app.
Proof.
  intros Hc.
  split; [|split; [|split; [|reflexivity]]].
  - unfold View._read_values, View.is_connected. unfold View.vbind at 1.
    rewrite Hc. reflexivity.
  - unfold View._ondefault, View.is_connected. unfold View.vbind at 1.
    rewrite Hc. reflexivity.
  - unfold View._setvalue, View.is_connected. unfold View.vbind at 1.
    rewrite Hc. reflexivity.
Qed.

(** The view as it starts: the Set button of debounce only warns. *)
Lemma commands_need_connection_witness :
  View.dialogs
    (snd (View._setvalue (Some (Int 5)) (set_debounce (answering "OK"))
            (View.started "COM3")))
  = [View.connect_first].
Proof.
  destruct (commands_need_connection (answering "OK") (View.started "COM3")
              (Some (Int 5)) (set_debounce (answering "OK")) eq_refl)
    as (_ & _ & -> & _).
  reflexivity.
Defined.

(** ** [_read_values] sets all five variables or none *)

(** On an open port, with the variables of [__init__], [_read_values]
    never raises and does one of three things: it sets the five variables
    to the five values of one reply and shows nothing; or it shows the
    text of the [ReplyError] and changes no variable; or, the connection
    lost, it shows that and disables the widgets, with the port closed
    and no variable changed. *)
Theorem read_values_all_or_nothing env app :
  is_open (_serial (View.mphmeter app)) = true ->
  View.declared (View.variables app) ->
  let app' := snd (View._read_values env app) in
  fst (View._read_values env app) = Ok tt
  /\ View.declared (View.variables app')
  /\ ((exists x y c u v,
         fst (read env (View.mphmeter app))
         = Ok [PyInt x; PyInt y; PyStr c; PyFloat u; PyFloat v]
         /\ View.variables app'
            = [("version", PyStr c); ("vbat_v", PyFloat v);
               ("muempp_µm", PyInt x); ("debounce_ms", PyInt y);
               ("vwarn_v", PyFloat u)]
         /\ View.dialogs app' = View.dialogs app
         /\ View.need_connection app' = View.need_connection app)
      \/ (exists text value,
            fst (read env (View.mphmeter app))
            = Raise (ReplyError text (Some value))
            /\ View.variables app' = View.variables app
            /\ View.dialogs app'
               = (View.dialogs app ++ [View.showerror "ERROR" text])%list
            /\ View.need_connection app' = View.need_connection app
            /\ is_open (_serial (View.mphmeter app')) = true)
      \/ (fst (read env (View.mphmeter app)) = Raise LostConnectionError
          /\ View.variables app' = View.variables app
          /\ View.dialogs app'
             = (View.dialogs app ++ [View.connection_lost])%list
          /\ View.need_connection app' = "disabled"
          /\ is_open (_serial (View.mphmeter app')) = false)).
Proof.
  intros Ho Hd.
  destruct (read_values_cases env app Ho Hd)
    as [(x & y & c & u & v & Hr & ->)
       |[(text & value & Hr & ->)|(Hr & Hc & ->)]];
    cbn [fst snd].
  - split; [reflexivity|]. split; [reflexivity|].
    left. exists x, y, c, u, v. rewrite Hr.
    repeat (split; [reflexivity|]). reflexivity.
  - split; [reflexivity|]. split; [exact Hd|].
    right; left. exists text, value. rewrite Hr.
    repeat (split; [reflexivity|]). exact Ho.
  - split; [reflexivity|]. split; [exact Hd|].
    right; right. split; [exact Hr|].
    repeat (split; [reflexivity|]). exact Hc.
Qed.

(** A connected view reads the state of the example. *)
Lemma read_values_all_or_nothing_witness :
  View.variables
    (snd (View._read_values (answering "43000;0;1.2;7500;12000")
            (View.set_mphmeter (opened_on "COM3") (View.started "COM3"))))
  = [("version", PyStr "1.2"); ("vbat_v", PyFloat 12);
     ("muempp_µm", PyInt 43000); ("debounce_ms", PyInt 0);
     ("vwarn_v", PyFloat 7.5)].
Proof.
  destruct (read_values_all_or_nothing (answering "43000;0;1.2;7500;12000")
              (View.set_mphmeter (opened_on "COM3") (View.started "COM3"))
              eq_refl eq_refl) as (_ & _ & _).
  reflexivity.
Defined.

(** ** The Set buttons *)

(** The four ways a setter ends on an open port, once its command is
    built. *)
Lemma setValue_cases env p value cmd w :
  is_open (_serial w) = true ->
  command p value = Ok cmd ->
  setValue env p value w = (Ok tt, after_exchange (line_of cmd) w)
  \/ (exists text,
        setValue env p value w
        = (Raise (ReplyError text None), after_exchange (line_of cmd) w))
  \/ setValue env p value w
     = (Raise (BoundaryError (boundary_text p) value), w)
  \/ (fst (setValue env p value w) = Raise LostConnectionError
      /\ is_open (_serial (snd (setValue env p value w))) = false).
Proof.
  intros Ho Hc.
  destruct (Z_le_num (low p) value && num_le_Z value (high p)) eqn:Hb.
  - destruct (setValue_outcome env p value cmd w Ho Hc Hb) as [H|[H|H]].
    + left; exact H.
    + right; left; exact H.
    + right; right; right; exact H.
  - right; right; left.
    rewrite (setValue_command env p value cmd w Hc).
    rewrite setvalue_out_of_bounds by assumption. reflexivity.
Qed.

(** With the port open and a value from which the setter can build its
    command, a Set button never raises and changes no variable.  It shows
    nothing when the device accepts the value; the same text, which names
    v_warn, for the [ReplyError] of any of the three parameters; the text
    of the [BoundaryError], with no call on the port; and, the connection
    lost, it shows that and disables the widgets, with the port closed.
    With an entry that has no value it only asks to fill the field. *)
Theorem set_button_dialogs env p value cmd setfunc app :
  is_open (_serial (View.mphmeter app)) = true ->
  command p value = Ok cmd ->
  let r := fst (setValue env p value (View.mphmeter app)) in
  let app' := snd (View._setvalue (Some value) (setValue env p) app) in
  fst (View._setvalue (Some value) (setValue env p) app) = Ok tt
  /\ View.variables app' = View.variables app
  /\ (r = Ok tt -> View.dialogs app' = View.dialogs app)
  /\ (forall text v,
        r = Raise (ReplyError text v) ->
        View.dialogs app'
        = (View.dialogs app
             ++ [View.showerror "ERROR" "Could not set new v_warn value!"])%list)
  /\ (forall text v,
        r = Raise (BoundaryError text v) ->
        View.dialogs app'
        = (View.dialogs app ++ [View.showerror "ERROR" text])%list
        /\ View.mphmeter app' = View.mphmeter app)
  /\ (r = Raise LostConnectionError ->
      View.dialogs app' = (View.dialogs app ++ [View.connection_lost])%list
      /\ View.need_connection app' = "disabled"
      /\ is_open (_serial (View.mphmeter app')) = false)
  /\ View._setvalue None setfunc app
     = (Ok tt,
        View.add_dialog
          (View.showwarning "ERROR" "Fill field before setting value!") app).
Proof.
  intros Ho Hc. cbv zeta.
  assert (View._setvalue None setfunc app
          = (Ok tt,
             View.add_dialog
               (View.showwarning "ERROR" "Fill field before setting value!")
               app)) as Hnone.
  { unfold View._setvalue, View.is_connected. unfold View.vbind at 1.
    rewrite Ho. reflexivity. }
  assert (View._setvalue (Some value) (setValue env p) app
          = View.try_ (View.meter (setValue env p value))
              (fun e =>
                 match e with
                 | ReplyError _ _ =>
                     Some (View.show
                             (View.showerror "ERROR"
                                "Could not set new v_warn value!"))
                 | LostConnectionError =>
                     Some (View.vbind (View.show View.connection_lost)
                             (fun _ => View._disconnect))
                 | BoundaryError text _ =>
                     Some (View.show (View.showerror "ERROR" text))
                 | _ => None
                 end) app) as ->.
  { unfold View._setvalue, View.is_connected. unfold View.vbind at 1.
    rewrite Ho. reflexivity. }
  unfold View.try_, View.meter.
  destruct (setValue_cases env p value cmd (View.mphmeter app) Ho Hc)
    as [->|[[text ->]|[->|[Hr Hcl]]]]; cbn [fst snd].
  - split; [reflexivity|]. split; [reflexivity|].
    split; [reflexivity|]. split; [discriminate|]. split; [discriminate|].
    split; [discriminate|exact Hnone].
  - split; [reflexivity|]. split; [reflexivity|].
    split; [discriminate|]. split; [reflexivity|]. split; [discriminate|].
    split; [discriminate|exact Hnone].
  - split; [reflexivity|]. split; [reflexivity|].
    split; [discriminate|]. split; [discriminate|].
    split; [intros text v [= <- _]; split; reflexivity|].
    split; [discriminate|exact Hnone].
  - destruct (setValue env p value (View.mphmeter app)) as [r w1].
    cbn [fst snd] in *. subst r.
    unfold View._disconnect, View.vbind, View.show, View.meter,
      View.configure.
    cbn [View.mphmeter View.add_dialog View.set_mphmeter].
    rewrite (disconnect_on_closed w1 Hcl). cbn [fst snd].
    split; [reflexivity|]. split; [reflexivity|].
    split; [discriminate|]. split; [discriminate|]. split; [discriminate|].
    split; [|exact Hnone].
    intros _. split; [reflexivity|]. split; [reflexivity|exact Hcl].
Qed.

(** The device refuses a debounce time: the dialog names v_warn. *)
Lemma set_button_dialogs_witness :
  View.dialogs
    (snd (View._setvalue (Some (Int 5)) (setValue (answering "ERR") Debounce)
            (View.set_mphmeter (opened_on "COM3") (View.started "COM3"))))
  = [View.showerror "ERROR" "Could not set new v_warn value!"].
Proof.
  destruct (set_button_dialogs (answering "ERR") Debounce (Int 5) "d5"
              (setValue (answering "ERR") Debounce)
              (View.set_mphmeter (opened_on "COM3") (View.started "COM3"))
              eq_refl eq_refl) as (_ & _ & _ & H & _).
  exact (H "Error setting debounce time (ms) value" None eq_refl).
Defined.

(** ** The widgets are enabled while the port is open *)













Lemma onconnect_no_port env app :
  View.port_variable app = "" ->
  View._onconnect env app
  = (Ok tt,
     View.add_dialog
       (View.showwarning "ERROR" "Select port before opening!") app).
Proof.
  intros E. unfold View._onconnect, View.port_get.
  unfold View.vbind at 1. cbv beta iota. rewrite E. reflexivity.
Qed.

(** [_onconnect] with a port chosen, by the result of [connect]. *)
Lemma onconnect_port env app r w' :
  View.port_variable app <> "" ->
  connect env (View.port_variable app) (View.mphmeter app) = (r, w') ->
  View._onconnect env app
  = match r with
    | Ok c =>
        (if negb (fst c)
         then View.show (View.showerror "ERROR" (snd c))
         else
           View.vbind (View.configure "enabled")
             (fun _ =>
                View.vbind (View._read_values env)
                  (fun _ =>
                     View.show
                       (View.showinfo "Success"
                          ("Successfully connected to Mph Meter at "
                           ++ View.port_variable app)))))
          (View.set_mphmeter w' app)
    | Raise e => (Raise e, View.set_mphmeter w' app)
    end.
Proof.
  intros E Hc. apply String.eqb_neq in E.
  unfold View._onconnect, View.port_get. unfold View.vbind at 1.
  cbv beta iota. rewrite E.
  unfold View.meter. unfold View.vbind at 1. cbv beta.
  rewrite Hc. destruct r; reflexivity.
Qed.





(** ** The firmware update *)

(** [_onfwupdate] disconnects before anything else: whatever happens
    next, the port is closed and the widgets are disabled when it ends,
    and no variable changes.  With no port chosen it only warns and starts
    no programmer.  With a port it shows the instruction for the reset
    button and runs the programmer once, then shows success for [True],
    failure for [False]; when the programmer cannot be started the
    exception escapes after the instruction. *)
Theorem firmware_update_disconnects abspath_join Popen app :
  let port := View.port_variable app in
  let app' := snd (View._onfwupdate abspath_join Popen app) in
  let press :=
    View.showwarning "Info"
      "Press the RESET button of the ARDUINO and release it right after clicking the OK button." in
  is_open (_serial (View.mphmeter app')) = false
  /\ View.need_connection app' = "disabled"
  /\ View.variables app' = View.variables app
  /\ (port = "" ->
      fst (View._onfwupdate abspath_join Popen app) = Ok tt
      /\ View.programmer app' = View.programmer app
      /\ View.dialogs app'
         = (View.dialogs app
              ++ [View.showwarning "ERROR" "Select port before opening!"])%list)
  /\ (port <> "" ->
      View.programmer app'
      = (View.programmer app ++ snd (flash_fw abspath_join Popen port))%list
      /\ (fst (flash_fw abspath_join Popen port) = Ok true ->
          View.dialogs app'
          = (View.dialogs app
               ++ [press;
                   View.showinfo "Info"
                     ("Firmware update successfull!" ++ LF
                      ++ "Please update values or restore defaults MANUALLY!")])%list)
      /\ (fst (flash_fw abspath_join Popen port) = Ok false ->
          View.dialogs app'
          = (View.dialogs app
               ++ [press; View.showerror "ERROR" "Firmware update failed!"])%list)
      /\ (forall e,
            fst (flash_fw abspath_join Popen port) = Raise e ->
            fst (View._onfwupdate abspath_join Popen app) = Raise e
            /\ View.dialogs app' = (View.dialogs app ++ [press])%list)).
Proof.
  cbv zeta.
  unfold View._onfwupdate, View._disconnect, View.vbind, View.meter,
    View.configure, View.port_get, View.show, View.flash.
  rewrite disconnect_closed.
  cbn [View.port_variable View.set_need_connection View.set_mphmeter
       View.add_dialog].
  destruct (String.eqb_spec (View.port_variable app) "") as [E|E].
  - cbn [fst snd View.mphmeter View.need_connection View.variables
         View.programmer View.dialogs View.add_dialog
         View.set_need_connection View.set_mphmeter].
    split; [apply closed_is_closed|]. split; [reflexivity|].
    split; [reflexivity|].
    split; [intros _; split; [reflexivity|split; reflexivity]|].
    intros H; contradiction.
  - destruct (flash_fw abspath_join Popen (View.port_variable app))
      as [[[|]|e] events];
      cbn [fst snd View.mphmeter View.need_connection View.variables
           View.programmer View.dialogs View.add_dialog
           View.add_programmer View.set_need_connection
           View.set_mphmeter];
      (split; [apply closed_is_closed|]);
      (split; [reflexivity|]); (split; [reflexivity|]);
      (split; [intros H; contradiction|]); intros _;
      (split; [reflexivity|]).
    + split; [intros _; rewrite <- app_assoc; reflexivity|].
      split; [discriminate|]. intros e; discriminate.
    + split; [discriminate|].
      split; [intros _; rewrite <- app_assoc; reflexivity|].
      intros e; discriminate.
    + split; [discriminate|]. split; [discriminate|].
      intros e' [= <-]. split; reflexivity.
Qed.

(** A connected view, and a programmer that fails. *)
Lemma firmware_update_disconnects_witness :
  let app' :=
    snd (View._onfwupdate slash_join (fun _ => Some failing)
           (View.set_need_connection "enabled"
              (View.set_mphmeter (opened_on "COM3") (View.started "COM3")))) in
  is_open (_serial (View.mphmeter app')) = false
  /\ View.need_connection app' = "disabled"
  /\ last (View.dialogs app') View.bell
     = View.showerror "ERROR" "Firmware update failed!".
Proof.
  cbv zeta.
  destruct (firmware_update_disconnects slash_join (fun _ => Some failing)
              (View.set_need_connection "enabled"
                 (View.set_mphmeter (opened_on "COM3")
                    (View.started "COM3"))))
    as (Hc & Hd & _ & _ & Hp).
  split; [exact Hc|]. split; [exact Hd|].
  destruct (Hp ltac:(discriminate)) as (_ & _ & Hf & _).
  rewrite (Hf eq_refl). reflexivity.
Defined.

(** ** The Connect button *)


(** With no port chosen [_onconnect] only warns.  With a port whose
    [open] fails it shows the reason as an error, with the port closed and
    nothing else changed.  With a port whose [open] succeeds it ends with
    the [NameError] of [connect]: no dialog is shown, no variable is read,
    the port is left open and the widgets that need a connection are not
    enabled. *)
Theorem onconnect_cases env app :
  let port := View.port_variable app in
  let w := View.mphmeter app in
  (port = "" ->
   View._onconnect env app
   = (Ok tt,
      View.add_dialog
        (View.showwarning "ERROR" "Select port before opening!") app))
  /\ (port <> "" ->
      env (trace (closed w)) (EvOpen port) = Fails ->
      View._onconnect env app
      = (Ok tt,
         View.add_dialog
           (View.showerror "ERROR" "Could not open serial port")
           (View.set_mphmeter (opening port w) app))
      /\ is_open (_serial (opening port w)) = false)
  /\ (port <> "" ->
      forall d,
        env (trace (closed w)) (EvOpen port) = Returns d ->
        View._onconnect env app
        = (Raise (NameError "test"),
           View.set_mphmeter (set_is_open true (opening port w)) app)).
Proof.
  cbv zeta. split; [|split].
  - apply onconnect_no_port.
  - intros E Hopen.
    rewrite (onconnect_port env app _ _ E (connect_open_fails env _ _ Hopen)).
    split; [reflexivity|]. unfold opening. cbn. apply closed_is_closed.
  - intros E d Hopen.
    rewrite (onconnect_port env app _ _ E (connect_opened env _ _ d Hopen)).
    reflexivity.
Qed.

(** The view as it starts, with a port on which a mph Meter answers: the
    button Connect ends with [NameError], the port open and the widgets
    disabled. *)
Lemma onconnect_cases_witness :
  fst (View._onconnect (answering "mph Meter") (View.started "COM3"))
  = Raise (NameError "test")
  /\ is_open
       (_serial
          (View.mphmeter
             (snd (View._onconnect (answering "mph Meter")
                     (View.started "COM3")))))
     = true
  /\ View.need_connection
       (snd (View._onconnect (answering "mph Meter") (View.started "COM3")))
     = "disabled"
  /\ View.dialogs
       (snd (View._onconnect (answering "mph Meter") (View.started "COM3")))
     = [].
Proof.
  destruct (onconnect_cases (answering "mph Meter") (View.started "COM3"))
    as (_ & _ & H).
  rewrite (H ltac:(discriminate) [] eq_refl).
  split; [reflexivity|]. split; [reflexivity|]. split; reflexivity.
Defined.

(** ** The Restore Defaults button *)



(** ** The validation of an entry *)

(** [_validate_type] accepts or rejects, and rings the bell exactly when
    it rejects, which it never does for the empty text; nothing else
    changes.  For an entry of integers it accepts the decimal text of
    every [int]: each integer that [_read_values] shows in such an entry
    passes the validation of the entry. *)
Theorem validate_type_bell value _type app :
  (View._validate_type value _type app = (Ok true, app)
   \/ View._validate_type value _type app
      = (Ok false, View.add_dialog View.bell app)
      /\ value <> "")
  /\ View._validate_type "" _type app = (Ok true, app)
  /\ forall z, View._validate_type (dec z) View.type_int app = (Ok true, app).
Proof.
  split; [|split].
  - unfold View._validate_type.
    destruct (String.eqb_spec value "") as [E|E]; [left; reflexivity|].
    cbv zeta.
    destruct (match _type with
              | View.type_int =>
                  match int_of_string value with
                  | Some _ => true
                  | None => false
                  end
              | View.type_float =>
                  match float_of_string value with
                  | Some _ => true
                  | None => false
                  end
              end); [left; reflexivity|right; split; [reflexivity|exact E]].
  - reflexivity.
  - intros z. unfold View._validate_type. rewrite int_of_string_dec.
    destruct (dec z =? "")%string; reflexivity.
Qed.
